(** * ZenobiaClient: connection lifecycle, reconnection and message dispatch

    A shallow embedding of the [ZenobiaClient] class (the WebSocket based
    transfer tracker) together with the part of the browser it talks to:
    the table of WebSocket objects, the table of pending timers, the page
    location and [JSON.parse].

    The client object is a record of its private fields.  Every method and
    every socket handler is a function [World -> World]; what the code does
    to the outside (observer callbacks, [new WebSocket], [close], [send],
    [setTimeout], [clearTimeout]) is appended to [trace], console output to
    [console].  Observer callbacks are opaque: they are identified by a
    number, are assumed to return normally and not to call back into the
    client. *)

From Stdlib Require Import ZArith Lia Ascii String.
From stdpp Require Import gmap strings list fin_maps.

Open Scope Z_scope.
Set Warnings "-register-all".

(** ** JavaScript values produced by [JSON.parse] *)

Inductive JSON : Type :=
| JNull
| JBool (b : bool)
| JNumber (mantissa exponent : Z)      (* mantissa * 10 ^ exponent *)
| JString (s : string)
| JArray (items : list JSON)
| JObject (props : list (string * JSON)).

(** Property read [d.k] on a non-null value; [None] is [undefined].
    Primitives and arrays have no property named [type], [transfer] or
    [message], the only keys the client reads. *)
Fixpoint assoc (k : string) (props : list (string * JSON)) : option JSON :=
  match props with
  | [] => None
  | (k', v) :: rest => if String.eqb k k' then Some v else assoc k rest
  end.

Definition get (d : JSON) (k : string) : option JSON :=
  match d with
  | JObject props => assoc k props
  | _ => None
  end.

(** [v === s] for a string literal [s]. *)
Definition strict_eq_str (v : option JSON) (s : string) : bool :=
  match v with
  | Some (JString s') => String.eqb s' s
  | _ => false
  end.

(** JavaScript truthiness of a value read from a parsed frame. *)
Definition truthy (v : option JSON) : bool :=
  match v with
  | None => false
  | Some JNull => false
  | Some (JBool b) => b
  | Some (JNumber m _) => negb (m =? 0)
  | Some (JString s) => negb (String.eqb s "")
  | Some (JArray _) => true
  | Some (JObject _) => true
  end.

(** Truthiness of a [string | null] field. *)
Definition truthy_str (o : option string) : bool :=
  match o with
  | Some s => negb (String.eqb s "")
  | None => false
  end.

(** Truthiness of a [number | null] field. *)
Definition truthy_num (o : option Z) : bool :=
  match o with
  | Some n => negb (n =? 0)
  | None => false
  end.

(** Whether turning a parsed value into a string throws, as a template
    literal [`${v}`] or [new Error(v)] does.  A primitive never throws.  An
    object is asked for its [toString], then its [valueOf]: an own property
    named [toString] holds a parsed value, which cannot be called, and
    [Object.prototype.valueOf] gives the object back, so a [TypeError] is
    thrown; without such a property [Object.prototype.toString] answers.
    An array joins its elements, turning each one that is neither [null]
    nor [undefined] into a string. *)
Fixpoint ToString_throws (v : JSON) : bool :=
  match v with
  | JObject props =>
      match assoc "toString" props with
      | Some _ => true
      | None => false
      end
  | JArray items =>
      (fix any (l : list JSON) : bool :=
         match l with
         | [] => false
         | x :: rest => ToString_throws x || any rest
         end) items
  | _ => false
  end.

(** The same for a value that may be [undefined], which reads
    ["undefined"]. *)
Definition template_throws (v : option JSON) : bool :=
  match v with
  | Some x => ToString_throws x
  | None => false
  end.

(** ** [JSON.stringify], as far as the client uses it *)

Definition dquote : string := String "034"%char EmptyString.

Definition hex_digit (n : N) : ascii :=
  match n with
  | 0 => "0" | 1 => "1" | 2 => "2" | 3 => "3" | 4 => "4" | 5 => "5"
  | 6 => "6" | 7 => "7" | 8 => "8" | 9 => "9" | 10 => "a" | 11 => "b"
  | 12 => "c" | 13 => "d" | 14 => "e" | _ => "f"
  end%N%char.

Definition escape_char (c : ascii) : string :=
  let n := N_of_ascii c in
  if (n =? 34)%N then String "092"%char dquote
  else if (n =? 92)%N then String "092"%char (String "092"%char EmptyString)
  else if (n =? 8)%N then String "092"%char "b"
  else if (n =? 9)%N then String "092"%char "t"
  else if (n =? 10)%N then String "092"%char "n"
  else if (n =? 12)%N then String "092"%char "f"
  else if (n =? 13)%N then String "092"%char "r"
  else if (n <? 32)%N then
    String "092"%char
      (String "u" (String "0" (String "0"
         (String (hex_digit (n / 16)) (String (hex_digit (n mod 16)) EmptyString)))))
  else String c EmptyString.

Fixpoint escape_string (s : string) : string :=
  match s with
  | EmptyString => EmptyString
  | String c rest => escape_char c +:+ escape_string rest
  end.

Definition quote (s : string) : string := dquote +:+ escape_string s +:+ dquote.

(** Serialisation of an object literal whose values are strings, such as
    [{ type: "pong" }]: the only shape the client ever serialises. *)
Fixpoint stringify_props (props : list (string * string)) : string :=
  match props with
  | [] => EmptyString
  | [(k, v)] => quote k +:+ ":" +:+ quote v
  | (k, v) :: rest => quote k +:+ ":" +:+ quote v +:+ "," +:+ stringify_props rest
  end.

Definition JSON_stringify (props : list (string * string)) : string :=
  "{" +:+ stringify_props props +:+ "}".

(** ** The browser *)

(** [WebSocket.readyState] *)
Definition CONNECTING : Z := 0.
Definition OPEN : Z := 1.
Definition CLOSING : Z := 2.
Definition CLOSED : Z := 3.

Record WebSocket := {
  url : string;
  readyState : Z;
}.

(** What the page fixes and the client only reads. *)
Record Browser := {
  location_protocol : string;                 (* window.location.protocol *)
  JSON_parse : string -> option JSON;         (* None: SyntaxError thrown *)
  WebSocket_throws : string -> bool;          (* new WebSocket(url) throws *)
}.

(** ** The client object *)

(** The repository holds the tracker twice: the class with
    [listenToTransfer] (the reference) and an older one that bundles the
    transfer creation with the tracking.  They differ in the backoff cap,
    the attempt cap, the host, and the amount of console output. *)
Inductive Variant := Reference | Bundled.

Definition Callback := nat.

Record ZenobiaClient := {
  variant : Variant;
  socket : option nat;
  reconnectTimeout : option Z;
  reconnectAttempts : Z;
  maxReconnectAttempts : Z;
  transferId : option string;
  signature : option string;
  wsBaseUrl : string;
  onStatusCallback : option Callback;
  onErrorCallback : option Callback;
  onConnectionCallback : option Callback;
}.

Definition set_socket (v : option nat) (c : ZenobiaClient) : ZenobiaClient :=
  {| variant := variant c; socket := v; reconnectTimeout := reconnectTimeout c;
     reconnectAttempts := reconnectAttempts c;
     maxReconnectAttempts := maxReconnectAttempts c;
     transferId := transferId c; signature := signature c;
     wsBaseUrl := wsBaseUrl c; onStatusCallback := onStatusCallback c;
     onErrorCallback := onErrorCallback c;
     onConnectionCallback := onConnectionCallback c |}.

Definition set_reconnectTimeout (v : option Z) (c : ZenobiaClient) : ZenobiaClient :=
  {| variant := variant c; socket := socket c; reconnectTimeout := v;
     reconnectAttempts := reconnectAttempts c;
     maxReconnectAttempts := maxReconnectAttempts c;
     transferId := transferId c; signature := signature c;
     wsBaseUrl := wsBaseUrl c; onStatusCallback := onStatusCallback c;
     onErrorCallback := onErrorCallback c;
     onConnectionCallback := onConnectionCallback c |}.

Definition set_reconnectAttempts (v : Z) (c : ZenobiaClient) : ZenobiaClient :=
  {| variant := variant c; socket := socket c; reconnectTimeout := reconnectTimeout c;
     reconnectAttempts := v;
     maxReconnectAttempts := maxReconnectAttempts c;
     transferId := transferId c; signature := signature c;
     wsBaseUrl := wsBaseUrl c; onStatusCallback := onStatusCallback c;
     onErrorCallback := onErrorCallback c;
     onConnectionCallback := onConnectionCallback c |}.

Definition set_credentials (t s : option string) (c : ZenobiaClient) : ZenobiaClient :=
  {| variant := variant c; socket := socket c; reconnectTimeout := reconnectTimeout c;
     reconnectAttempts := reconnectAttempts c;
     maxReconnectAttempts := maxReconnectAttempts c;
     transferId := t; signature := s;
     wsBaseUrl := wsBaseUrl c; onStatusCallback := onStatusCallback c;
     onErrorCallback := onErrorCallback c;
     onConnectionCallback := onConnectionCallback c |}.

(** [if (cb) this.field = cb]: an omitted argument keeps the old value. *)
Definition keep_or {A} (new old : option A) : option A :=
  match new with
  | Some x => Some x
  | None => old
  end.

Definition set_callbacks (onStatus onError onConnection : option Callback)
    (c : ZenobiaClient) : ZenobiaClient :=
  {| variant := variant c; socket := socket c; reconnectTimeout := reconnectTimeout c;
     reconnectAttempts := reconnectAttempts c;
     maxReconnectAttempts := maxReconnectAttempts c;
     transferId := transferId c; signature := signature c;
     wsBaseUrl := wsBaseUrl c;
     onStatusCallback := keep_or onStatus (onStatusCallback c);
     onErrorCallback := keep_or onError (onErrorCallback c);
     onConnectionCallback := keep_or onConnection (onConnectionCallback c) |}.

(** ** Effects *)

Inductive Effect :=
| CallStatus (cb : Callback) (status : JSON)        (* onStatusCallback(status) *)
| CallError (cb : Callback) (error : JSON)          (* onErrorCallback(error) *)
| CallConnection (cb : Callback) (connected : bool) (* onConnectionCallback(connected) *)
| NewWebSocket (wsUrl : string)                     (* new WebSocket(wsUrl) *)
| SocketCloseCall (sock : nat) (code : option Z)    (* sock.close(code) *)
| SocketSend (sock : nat) (data : string)           (* sock.send(data) *)
| SetTimeout (id : Z) (delay : Z)                   (* id = window.setTimeout(.., delay) *)
| ClearTimeout (id : Z).                            (* window.clearTimeout(id) *)

Inductive LogLine :=
| ErrMissingCredentials
| ErrSocket (tid : option string)
| LogMessageReceived (tid : option string) (data : string)
| LogReconnectIn (delay attempt : Z)
| LogReconnecting (attempt : Z)
| LogClosing (tid : option string)
(* the older class only *)
| LogConnecting (wsUrl : string)
| LogConnected (tid : option string)
| LogDisconnected (tid : option string) (code : Z)
| LogStatusUpdate (transfer : JSON)
| ErrFromServer (message : JSON)
| LogPing
| ErrParse (data : string)
| ErrSetup.

Record World := {
  this : ZenobiaClient;
  sockets : gmap nat WebSocket;     (* every WebSocket the client created *)
  next_socket : nat;
  timers : gmap Z Z;                (* pending timers: id to delay *)
  next_timer : Z;                   (* timer ids are positive integers *)
  trace : list Effect;
  console : list LogLine;
}.

Definition with_this (f : ZenobiaClient -> ZenobiaClient) (w : World) : World :=
  {| this := f (this w); sockets := sockets w; next_socket := next_socket w;
     timers := timers w; next_timer := next_timer w;
     trace := trace w; console := console w |}.

Definition emit (e : Effect) (w : World) : World :=
  {| this := this w; sockets := sockets w; next_socket := next_socket w;
     timers := timers w; next_timer := next_timer w;
     trace := trace w ++ [e]; console := console w |}.

Definition log (l : LogLine) (w : World) : World :=
  {| this := this w; sockets := sockets w; next_socket := next_socket w;
     timers := timers w; next_timer := next_timer w;
     trace := trace w; console := console w ++ [l] |}.

(** Console output that only the older class produces. *)
Definition log_bundled (l : LogLine) (w : World) : World :=
  match variant (this w) with
  | Reference => w
  | Bundled => log l w
  end.

Definition with_sockets (f : gmap nat WebSocket -> gmap nat WebSocket) (w : World) : World :=
  {| this := this w; sockets := f (sockets w); next_socket := next_socket w;
     timers := timers w; next_timer := next_timer w;
     trace := trace w; console := console w |}.

Definition with_timers (f : gmap Z Z -> gmap Z Z) (w : World) : World :=
  {| this := this w; sockets := sockets w; next_socket := next_socket w;
     timers := f (timers w); next_timer := next_timer w;
     trace := trace w; console := console w |}.

(** ** Browser primitives the client calls *)

Definition set_readyState (r : Z) (ws : WebSocket) : WebSocket :=
  {| url := url ws; readyState := r |}.

(** [sock.readyState]; a socket the browser does not know is [CLOSED]. *)
Definition readyState_of (sock : nat) (w : World) : Z :=
  match sockets w !! sock with
  | Some ws => readyState ws
  | None => CLOSED
  end.

(** [sock.close(code)]: starts the closing handshake of a connecting or
    open socket and is without effect on a closing or closed one.  The
    close event follows later. *)
Definition socket_close (sock : nat) (code : option Z) (w : World) : World :=
  let w := emit (SocketCloseCall sock code) w in
  with_sockets
    (alter (fun ws => if readyState ws <? CLOSING then set_readyState CLOSING ws else ws) sock)
    w.

(** [new WebSocket(wsUrl)]: the new socket, or [None] when the constructor
    throws. *)
Definition new_WebSocket (env : Browser) (wsUrl : string) (w : World) : option nat * World :=
  let w := emit (NewWebSocket wsUrl) w in
  if WebSocket_throws env wsUrl then (None, w)
  else
    (Some (next_socket w),
     {| this := this w;
        sockets := <[next_socket w := {| url := wsUrl; readyState := CONNECTING |}]> (sockets w);
        next_socket := S (next_socket w);
        timers := timers w; next_timer := next_timer w;
        trace := trace w; console := console w |}).

(** [window.setTimeout(callback, delay)] *)
Definition setTimeout (delay : Z) (w : World) : Z * World :=
  let id := next_timer w in
  (id,
   {| this := this w; sockets := sockets w; next_socket := next_socket w;
      timers := <[id := delay]> (timers w); next_timer := id + 1;
      trace := trace w ++ [SetTimeout id delay]; console := console w |}).

(** [window.clearTimeout(id)] *)
Definition clearTimeout (id : Z) (w : World) : World :=
  with_timers (delete id) (emit (ClearTimeout id) w).

(** ** Methods of [ZenobiaClient] *)

Definition notifyConnectionStatus (connected : bool) (w : World) : World :=
  match onConnectionCallback (this w) with
  | Some cb => emit (CallConnection cb connected) w
  | None => w
  end.

Definition notifyStatus (status : JSON) (w : World) : World :=
  match onStatusCallback (this w) with
  | Some cb => emit (CallStatus cb status) w
  | None => w
  end.

Definition notifyError (error : JSON) (w : World) : World :=
  match onErrorCallback (this w) with
  | Some cb => emit (CallError cb error) w
  | None => w
  end.

(** [`${x}`] for a [string | null] field. *)
Definition interpolate (o : option string) : string := default "null" o.

Definition ws_scheme (env : Browser) : string :=
  if String.eqb (location_protocol env) "https:" then "wss:" else "ws:".

Definition wsUrl_of (env : Browser) (c : ZenobiaClient) : string :=
  ws_scheme env +:+ "//" +:+ wsBaseUrl c +:+ "/transfers/"
    +:+ interpolate (transferId c) +:+ "/ws?token=" +:+ interpolate (signature c).

#[global] Arguments ws_scheme : simpl never.
#[global] Arguments wsUrl_of : simpl never.

Definition connectWebSocket (env : Browser) (w : World) : World :=
  (* Close any existing socket connection *)
  let w :=
    match socket (this w) with
    | Some s =>
        notifyConnectionStatus false (with_this (set_socket None) (socket_close s None w))
    | None => w
    end in
  (* Only create a new WebSocket if we have a transferId and signature *)
  if negb (truthy_str (transferId (this w))) || negb (truthy_str (signature (this w)))
  then log ErrMissingCredentials w
  else
    let wsUrl := wsUrl_of env (this w) in
    let w := log_bundled (LogConnecting wsUrl) w in
    match new_WebSocket env wsUrl w with
    | (Some s, w) => with_this (set_socket (Some s)) w
    | (None, w) =>
        notifyError (JString "Failed to establish WebSocket connection")
          (log_bundled ErrSetup w)
    end.

(** The two halves of [connectWebSocket], named for the proofs. *)
Definition close_existing (w : World) : World :=
  match socket (this w) with
  | Some s =>
      notifyConnectionStatus false (with_this (set_socket None) (socket_close s None w))
  | None => w
  end.

Definition open_socket (env : Browser) (w : World) : World :=
  if negb (truthy_str (transferId (this w))) || negb (truthy_str (signature (this w)))
  then log ErrMissingCredentials w
  else
    let wsUrl := wsUrl_of env (this w) in
    let w := log_bundled (LogConnecting wsUrl) w in
    match new_WebSocket env wsUrl w with
    | (Some s, w) => with_this (set_socket (Some s)) w
    | (None, w) =>
        notifyError (JString "Failed to establish WebSocket connection")
          (log_bundled ErrSetup w)
    end.

Definition backoffCap (v : Variant) : Z :=
  match v with
  | Reference => 30000
  | Bundled => 5000
  end.

Definition attemptReconnect (w : World) : World :=
  let w := with_this (fun c => set_reconnectAttempts (reconnectAttempts c + 1) c) w in
  let reconnectDelay :=
    Z.min (1000 * 2 ^ (reconnectAttempts (this w) - 1)) (backoffCap (variant (this w))) in
  let w := log (LogReconnectIn reconnectDelay (reconnectAttempts (this w))) w in
  let w :=
    if truthy_num (reconnectTimeout (this w))
    then clearTimeout (default 0 (reconnectTimeout (this w))) w
    else w in
  let '(id, w) := setTimeout reconnectDelay w in
  with_this (set_reconnectTimeout (Some id)) w.

(** The callback handed to [setTimeout] by [attemptReconnect]. *)
Definition reconnect_callback (env : Browser) (w : World) : World :=
  connectWebSocket env (log (LogReconnecting (reconnectAttempts (this w))) w).

Definition disconnect (w : World) : World :=
  let w :=
    if truthy_num (reconnectTimeout (this w))
    then with_this (set_reconnectTimeout None)
           (clearTimeout (default 0 (reconnectTimeout (this w))) w)
    else w in
  let w :=
    match socket (this w) with
    | Some s =>
        if readyState_of s w <? 2
        then notifyConnectionStatus false
               (with_this (set_socket None)
                  (socket_close s None (log (LogClosing (transferId (this w))) w)))
        else w
    | None => w
    end in
  with_this (set_credentials None None) w.

Definition listenToTransfer (env : Browser) (transferId signature : string)
    (onStatus onError onConnection : option Callback) (w : World) : World :=
  let w := with_this (set_credentials (Some transferId) (Some signature)) w in
  let w := with_this (set_callbacks onStatus onError onConnection) w in
  connectWebSocket env w.

(** ** Socket handlers installed by [connectWebSocket] *)

Definition onopen (w : World) : World :=
  let w := notifyConnectionStatus true w in
  let w := with_this (set_reconnectAttempts 0) w in
  log_bundled (LogConnected (transferId (this w))) w.

Definition onclose (code : Z) (w : World) : World :=
  let w := notifyConnectionStatus false w in
  let w := with_this (set_socket None) w in
  let w := log_bundled (LogDisconnected (transferId (this w)) code) w in
  if negb (code =? 1000)
     && (reconnectAttempts (this w) <? maxReconnectAttempts (this w))
  then attemptReconnect w
  else w.

Definition onerror (w : World) : World :=
  let w := log (ErrSocket (transferId (this w))) w in
  notifyError (JString "WebSocket error occurred") w.

Definition pong_frame : string := JSON_stringify [("type", "pong")].

#[global] Arguments pong_frame : simpl never.

(** The older class writes a status or error frame to the console with a
    template literal, inside the [try]: [`... ${data.transfer.status}`],
    [`... ${data.message}`].  Whether that throws on the interpolated
    value [v]; the reference class logs nothing there. *)
Definition logging_throws (w : World) (v : option JSON) : bool :=
  match variant (this w) with
  | Reference => false
  | Bundled => template_throws v
  end.

(** The [catch] of [onmessage]. *)
Definition parse_failed (data : string) (w : World) : World :=
  notifyError (JString "Failed to parse message") (log_bundled (ErrParse data) w).

(** [sock] is the socket the handler was installed on, which need not be
    [this.socket] any more. *)
Definition onmessage (env : Browser) (sock : nat) (data : string) (w : World) : World :=
  let w := log (LogMessageReceived (transferId (this w)) data) w in
  match JSON_parse env data with
  | None => parse_failed data w          (* JSON.parse throws *)
  | Some JNull => parse_failed data w    (* data.type throws on null *)
  | Some d =>
      if strict_eq_str (get d "type") "status" && truthy (get d "transfer") then
        match get d "transfer" with
        | Some transfer =>
            if logging_throws w (get transfer "status") then parse_failed data w
            else notifyStatus transfer (log_bundled (LogStatusUpdate transfer) w)
        | None => w
        end
      else if strict_eq_str (get d "type") "error" && truthy (get d "message") then
        match get d "message" with
        | Some message =>
            if logging_throws w (Some message) then parse_failed data w
            else notifyError message (log_bundled (ErrFromServer message) w)
        | None => w
        end
      else if strict_eq_str (get d "type") "ping" then
        let w := log_bundled LogPing w in
        if readyState_of sock w =? OPEN then emit (SocketSend sock pong_frame) w else w
      else w
  end.

(** ** A JSON reader

    [JSON.parse] belongs to the browser and every statement below holds
    for whatever it returns.  [json_parse] is a reader for the JSON
    grammar (RFC 8259) used to run the handlers on concrete frames.
    Strings are byte strings in UTF-8, an escaped code unit is stored as
    the UTF-8 bytes of its number; a repeated key keeps its first position
    and its last value. *)

Definition is_ws (c : ascii) : bool :=
  let n := N_of_ascii c in
  ((n =? 32) || (n =? 9) || (n =? 10) || (n =? 13))%N.

Fixpoint skip_ws (s : string) : string :=
  match s with
  | String c rest => if is_ws c then skip_ws rest else s
  | EmptyString => s
  end.

Definition digit_val (c : ascii) : option Z :=
  let n := Z.of_N (N_of_ascii c) in
  if (48 <=? n) && (n <=? 57) then Some (n - 48) else None.

Definition hex_val (c : ascii) : option Z :=
  let n := Z.of_N (N_of_ascii c) in
  if (48 <=? n) && (n <=? 57) then Some (n - 48)
  else if (97 <=? n) && (n <=? 102) then Some (n - 87)
  else if (65 <=? n) && (n <=? 70) then Some (n - 55)
  else None.

(** Reads digits; returns the number read onto [acc], how many digits
    there were, and the rest. *)
Fixpoint read_digits (s : string) (acc count : Z) : Z * Z * string :=
  match s with
  | String c rest =>
      match digit_val c with
      | Some d => read_digits rest (acc * 10 + d) (count + 1)
      | None => (acc, count, s)
      end
  | EmptyString => (acc, count, s)
  end.

Definition byte_of (n : Z) : ascii := ascii_of_N (Z.to_N n).

Definition utf8 (n : Z) : string :=
  if n <? 128 then String (byte_of n) EmptyString
  else if n <? 2048 then
    String (byte_of (192 + n / 64)) (String (byte_of (128 + n mod 64)) EmptyString)
  else
    String (byte_of (224 + n / 4096))
      (String (byte_of (128 + (n / 64) mod 64))
         (String (byte_of (128 + n mod 64)) EmptyString)).

Definition unescape (c : ascii) : option string :=
  let n := N_of_ascii c in
  if (n =? 34)%N then Some dquote
  else if (n =? 92)%N then Some (String "092"%char EmptyString)
  else if (n =? 47)%N then Some "/"%string
  else if (n =? 98)%N then Some (String "008"%char EmptyString)
  else if (n =? 102)%N then Some (String "012"%char EmptyString)
  else if (n =? 110)%N then Some (String "010"%char EmptyString)
  else if (n =? 114)%N then Some (String "013"%char EmptyString)
  else if (n =? 116)%N then Some (String "009"%char EmptyString)
  else None.

Definition hex4 (a b c d : ascii) : option Z :=
  match hex_val a, hex_val b, hex_val c, hex_val d with
  | Some x, Some y, Some z, Some t => Some (((x * 16 + y) * 16 + z) * 16 + t)
  | _, _, _, _ => None
  end.

Definition prepend (p : string) (r : option (string * string)) : option (string * string) :=
  match r with
  | Some (body, rest) => Some (p +:+ body, rest)
  | None => None
  end.

(** The characters after an opening quote, up to the closing one. *)
Fixpoint read_string (s : string) : option (string * string) :=
  match s with
  | EmptyString => None
  | String c rest =>
      let n := N_of_ascii c in
      if (n =? 34)%N then Some (EmptyString, rest)
      else if (n =? 92)%N then
        match rest with
        | String e rest2 =>
            match unescape e with
            | Some p => prepend p (read_string rest2)
            | None =>
                if (N_of_ascii e =? 117)%N then
                  match rest2 with
                  | String h1 (String h2 (String h3 (String h4 rest3))) =>
                      match hex4 h1 h2 h3 h4 with
                      | Some u => prepend (utf8 u) (read_string rest3)
                      | None => None
                      end
                  | _ => None
                  end
                else None
            end
        | EmptyString => None
        end
      else if (n <? 32)%N then None
      else prepend (String c EmptyString) (read_string rest)
  end.

Definition read_sign (s : string) : bool * string :=
  match s with
  | String c rest => if (N_of_ascii c =? 45)%N then (true, rest) else (false, s)
  | EmptyString => (false, s)
  end.

Definition read_int (s : string) : option (Z * string) :=
  match s with
  | String c rest =>
      if (N_of_ascii c =? 48)%N then Some (0, rest)
      else
        match read_digits s 0 0 with
        | (m, count, rest') => if 0 <? count then Some (m, rest') else None
        end
  | EmptyString => None
  end.

(** Fraction: the mantissa grows by the digits, the exponent shrinks by
    their number. *)
Definition read_frac (m : Z) (s : string) : option (Z * Z * string) :=
  match s with
  | String c rest =>
      if (N_of_ascii c =? 46)%N then
        match read_digits rest m 0 with
        | (m', count, rest') => if 0 <? count then Some (m', - count, rest') else None
        end
      else Some (m, 0, s)
  | EmptyString => Some (m, 0, s)
  end.

Definition read_exp (s : string) : option (Z * string) :=
  match s with
  | String c rest =>
      if (N_of_ascii c =? 101)%N || (N_of_ascii c =? 69)%N then
        let '(neg, rest1) :=
          match rest with
          | String sg r =>
              if (N_of_ascii sg =? 45)%N then (true, r)
              else if (N_of_ascii sg =? 43)%N then (false, r)
              else (false, rest)
          | EmptyString => (false, rest)
          end in
        match read_digits rest1 0 0 with
        | (e, count, rest') =>
            if 0 <? count then Some (if neg then - e else e, rest') else None
        end
      else Some (0, s)
  | EmptyString => Some (0, s)
  end.

Definition read_number (s : string) : option (JSON * string) :=
  let '(neg, s1) := read_sign s in
  match read_int s1 with
  | None => None
  | Some (m, s2) =>
      match read_frac m s2 with
      | None => None
      | Some (m', e1, s3) =>
          match read_exp s3 with
          | None => None
          | Some (e2, s4) => Some (JNumber (if neg then - m' else m') (e1 + e2), s4)
          end
      end
  end.

Fixpoint strip_prefix (p s : string) : option string :=
  match p, s with
  | EmptyString, _ => Some s
  | String a p', String b s' => if Ascii.eqb a b then strip_prefix p' s' else None
  | String _ _, EmptyString => None
  end.

Fixpoint set_prop (k : string) (v : JSON) (props : list (string * JSON))
    : list (string * JSON) :=
  match props with
  | [] => [(k, v)]
  | (k', v') :: rest =>
      if String.eqb k k' then (k', v) :: rest else (k', v') :: set_prop k v rest
  end.

Fixpoint read_value (fuel : nat) (s : string) : option (JSON * string) :=
  match fuel with
  | O => None
  | S fuel' =>
      match skip_ws s with
      | EmptyString => None
      | String c rest =>
          let n := N_of_ascii c in
          if (n =? 123)%N then                      (* { *)
            match skip_ws rest with
            | String c' rest' =>
                if (N_of_ascii c' =? 125)%N then Some (JObject [], rest')
                else read_members fuel' rest []
            | EmptyString => None
            end
          else if (n =? 91)%N then                  (* [ *)
            match skip_ws rest with
            | String c' rest' =>
                if (N_of_ascii c' =? 93)%N then Some (JArray [], rest')
                else read_elements fuel' rest []
            | EmptyString => None
            end
          else if (n =? 34)%N then
            match read_string rest with
            | Some (str, rest') => Some (JString str, rest')
            | None => None
            end
          else
            match strip_prefix "true" (String c rest) with
            | Some rest' => Some (JBool true, rest')
            | None =>
            match strip_prefix "false" (String c rest) with
            | Some rest' => Some (JBool false, rest')
            | None =>
            match strip_prefix "null" (String c rest) with
            | Some rest' => Some (JNull, rest')
            | None => read_number (String c rest)
            end end end
      end
  end

with read_members (fuel : nat) (s : string) (acc : list (string * JSON))
    : option (JSON * string) :=
  match fuel with
  | O => None
  | S fuel' =>
      match skip_ws s with
      | String q rest =>
          if (N_of_ascii q =? 34)%N then
            match read_string rest with
            | Some (key, rest1) =>
                match skip_ws rest1 with
                | String colon rest2 =>
                    if (N_of_ascii colon =? 58)%N then
                      match read_value fuel' rest2 with
                      | Some (v, rest3) =>
                          match skip_ws rest3 with
                          | String sep rest4 =>
                              if (N_of_ascii sep =? 44)%N
                              then read_members fuel' rest4 (set_prop key v acc)
                              else if (N_of_ascii sep =? 125)%N
                              then Some (JObject (set_prop key v acc), rest4)
                              else None
                          | EmptyString => None
                          end
                      | None => None
                      end
                    else None
                | EmptyString => None
                end
            | None => None
            end
          else None
      | EmptyString => None
      end
  end

with read_elements (fuel : nat) (s : string) (acc : list JSON)
    : option (JSON * string) :=
  match fuel with
  | O => None
  | S fuel' =>
      match read_value fuel' s with
      | Some (v, rest) =>
          match skip_ws rest with
          | String sep rest' =>
              if (N_of_ascii sep =? 44)%N then read_elements fuel' rest' (acc ++ [v])
              else if (N_of_ascii sep =? 93)%N then Some (JArray (acc ++ [v]), rest')
              else None
          | EmptyString => None
          end
      | None => None
      end
  end.

Definition json_parse (text : string) : option JSON :=
  match read_value (2 * String.length text + 2) text with
  | Some (v, rest) =>
      match skip_ws rest with
      | EmptyString => Some v
      | String _ _ => None
      end
  | None => None
  end.

(** ** Construction *)

(** [new ZenobiaClient(isTest)] of the reference class. *)
Definition new_ZenobiaClient (isTest : bool) : ZenobiaClient :=
  {| variant := Reference;
     socket := None;
     reconnectTimeout := None;
     reconnectAttempts := 0;
     maxReconnectAttempts := 6;
     transferId := None;
     signature := None;
     wsBaseUrl :=
       if isTest then "transfer-status-test.zenobiapay.com"
       else "transfer-status.zenobiapay.com";
     onStatusCallback := None;
     onErrorCallback := None;
     onConnectionCallback := None |}.

(** [new ZenobiaClient()] of the older class. *)
Definition new_BundledClient : ZenobiaClient :=
  {| variant := Bundled;
     socket := None;
     reconnectTimeout := None;
     reconnectAttempts := 0;
     maxReconnectAttempts := 5;
     transferId := None;
     signature := None;
     wsBaseUrl := "transfer-status.zenobiapay.com";
     onStatusCallback := None;
     onErrorCallback := None;
     onConnectionCallback := None |}.

(** A page that has just constructed the client. *)
Definition page (c : ZenobiaClient) : World :=
  {| this := c; sockets := ∅; next_socket := 0%nat;
     timers := ∅; next_timer := 1; trace := []; console := [] |}.

(** ** The event loop

    Everything runs to completion on one thread: the page calls a public
    method, or the browser delivers a socket event or fires a timer. *)

Inductive Event :=
(* the caller *)
| ListenToTransfer (transferId signature : string)
    (onStatus onError onConnection : option Callback)
| SetObservers (onStatus onError onConnection : option Callback)
| TransferCreated (transferRequestId signature : string)
| Disconnect
(* the browser *)
| SocketOpened (sock : nat)
| SocketClosed (sock : nat) (code : Z)
| SocketErrored (sock : nat)
| SocketMessage (sock : nat) (data : string)
| TimerFired (id : Z).

(** The browser side of the socket events: [open] comes to a connecting
    socket, [message] to an open one, [close] and [error] to one that is
    not closed yet; a timer fires once unless it was cleared.  An event
    that cannot happen leaves the world as it is.

    [SetObservers] is the synchronous part of the older class's
    [createTransferAndListen]; [TransferCreated] is the arrival of a
    successful response to the creation request, after which the
    reference class stores the credentials ([createTransfer]) and the
    older class also connects. *)
Definition step (env : Browser) (e : Event) (w : World) : World :=
  match e with
  | ListenToTransfer tid sig onStatus onError onConnection =>
      match variant (this w) with
      | Reference => listenToTransfer env tid sig onStatus onError onConnection w
      | Bundled => w
      end
  | SetObservers onStatus onError onConnection =>
      match variant (this w) with
      | Reference => w
      | Bundled => with_this (set_callbacks onStatus onError onConnection) w
      end
  | TransferCreated tid sig =>
      let w := with_this (set_credentials (Some tid) (Some sig)) w in
      match variant (this w) with
      | Reference => w
      | Bundled => connectWebSocket env w
      end
  | Disconnect => disconnect w
  | SocketOpened sock =>
      match sockets w !! sock with
      | Some ws =>
          if readyState ws =? CONNECTING
          then onopen (with_sockets (insert sock (set_readyState OPEN ws)) w)
          else w
      | None => w
      end
  | SocketClosed sock code =>
      match sockets w !! sock with
      | Some ws =>
          if readyState ws =? CLOSED then w
          else onclose code (with_sockets (insert sock (set_readyState CLOSED ws)) w)
      | None => w
      end
  | SocketErrored sock =>
      match sockets w !! sock with
      | Some ws => if readyState ws =? CLOSED then w else onerror w
      | None => w
      end
  | SocketMessage sock data =>
      match sockets w !! sock with
      | Some ws => if readyState ws =? OPEN then onmessage env sock data w else w
      | None => w
      end
  | TimerFired id =>
      match timers w !! id with
      | Some _ => reconnect_callback env (with_timers (delete id) w)
      | None => w
      end
  end.

Definition run (env : Browser) (events : list Event) (w : World) : World :=
  fold_left (fun w e => step env e w) events w.

Definition by_caller (e : Event) : bool :=
  match e with
  | ListenToTransfer _ _ _ _ _ | SetObservers _ _ _ | TransferCreated _ _
  | Disconnect => true
  | _ => false
  end.

Definition is_open (e : Event) : bool :=
  match e with
  | SocketOpened _ => true
  | _ => false
  end.

(** ** Reading a trace *)

Definition is_retry (e : Effect) : bool :=
  match e with
  | SetTimeout _ _ => true
  | _ => false
  end.

Definition is_connect (e : Effect) : bool :=
  match e with
  | NewWebSocket _ => true
  | _ => false
  end.

Definition is_observer_call (e : Effect) : bool :=
  match e with
  | CallStatus _ _ | CallError _ _ | CallConnection _ _ => true
  | _ => false
  end.

Definition is_error_call (e : Effect) : bool :=
  match e with
  | CallError _ _ => true
  | _ => false
  end.

(** What a run added to the trace it started from. *)
Definition since (w w' : World) : list Effect :=
  drop (length (trace w)) (trace w').

(** [extends w w']: [w'] has the trace of [w] and possibly more. *)
Definition extends (w w' : World) : Prop := exists l, trace w' = trace w ++ l.

Fixpoint count (p : Effect -> bool) (l : list Effect) : Z :=
  match l with
  | [] => 0
  | e :: rest => (if p e then 1 else 0) + count p rest
  end.

(** ** Invariants of the event loop *)

(** Every pending timer is the one remembered in [reconnectTimeout], and
    timer identifiers are positive. *)
Definition timers_tracked (w : World) : Prop :=
  0 < next_timer w
  /\ forall id delay, timers w !! id = Some delay ->
       reconnectTimeout (this w) = Some id /\ id <> 0.

Definition no_credentials (w : World) : Prop :=
  transferId (this w) = None /\ signature (this w) = None.

(** How one event moves the attempt counter and the number of retries
    scheduled so far: not at all, both by one while below the cap, or the
    counter back to 0 on an open. *)
Definition counter_moves (opens : bool) (w w' : World) : Prop :=
  (reconnectAttempts (this w') = reconnectAttempts (this w)
   /\ count is_retry (trace w') = count is_retry (trace w))
  \/ (reconnectAttempts (this w) < maxReconnectAttempts (this w)
      /\ reconnectAttempts (this w') = reconnectAttempts (this w) + 1
      /\ count is_retry (trace w') = count is_retry (trace w) + 1)
  \/ (opens = true
      /\ reconnectAttempts (this w') = 0
      /\ count is_retry (trace w') = count is_retry (trace w)).

Definition bookkeeping (opens : bool) (w w' : World) : Prop :=
  extends w w'
  /\ variant (this w') = variant (this w)
  /\ maxReconnectAttempts (this w') = maxReconnectAttempts (this w)
  /\ wsBaseUrl (this w') = wsBaseUrl (this w)
  /\ counter_moves opens w w'.

(** Every socket except [sock] has been closed. *)
Definition all_closed_but (sock : nat) (w : World) : Prop :=
  map_Forall (fun s ws => s = sock \/ readyState ws = CLOSED) (sockets w).

(** Nothing is left that the browser could deliver. *)
Definition quiescent (w : World) : Prop :=
  timers w = ∅
  /\ map_Forall (fun (_ : nat) ws => readyState ws = CLOSED) (sockets w).

(** Either class, freshly constructed. *)
Definition new_client (v : Variant) (isTest : bool) : ZenobiaClient :=
  match v with
  | Reference => new_ZenobiaClient isTest
  | Bundled => new_BundledClient
  end.

(** ** Transfer creation

    The request itself is the browser's: the functions below are modelled
    from the point where the promise of [fetch] settles. *)

Definition getSignature (w : World) : option string := signature (this w).

Definition getTransferId (w : World) : option string := transferId (this w).

(** The [TransferResponse] interface. *)
Module TransferResponse.
Record t := {
  transferRequestId : string;
  merchantId : string;
  expiry : Z;
  signature : string;
}.
End TransferResponse.

(** What can be thrown in the body of the creating functions: the
    [TypeError] of a failed request, of a property read on [null], of a
    body read twice or of a message that cannot be turned into a string;
    the [SyntaxError] of a body that is not JSON; an [Error] made by the
    code, kept with the value its message is made from; or something that
    is no [Error] at all. *)
Inductive Thrown :=
| TypeError
| SyntaxError
| Error (message : JSON)
| NotAnError (value : JSON).

Definition instanceof_Error (e : Thrown) : bool :=
  match e with
  | NotAnError _ => false
  | _ => true
  end.

(** A response: whether it is [ok], and what the first [json()] on its
    body yields, [None] when the body is not JSON.  The body of a
    successful response is taken at the type the code reads it at, a
    [TransferResponse]: what the code does with a successful body that is
    JSON but not of that type is not covered.  [NoBody] is a response
    that has no body at all, as one with status 204 or 205. *)
Inductive Response :=
| Ok (body : option TransferResponse.t)
| NotOk (body : option JSON)
| NoBody (ok : bool).

Inductive FetchOutcome :=
| Rejected (reason : Thrown)
| Fulfilled (response : Response).

(** [await response.json()] on a response that has a body, which can be
    read once: [bodyUsed] tells whether it has been read before. *)
Definition json {A : Type} (bodyUsed : bool) (body : option A) : A + Thrown :=
  if bodyUsed then inr TypeError
  else match body with
       | Some v => inl v
       | None => inr SyntaxError
       end.

(** [response.json()] with what it does to the body: the promise, and
    [bodyUsed] afterwards. *)
Definition read {A : Type} (bodyUsed : bool) (body : option A) : (A + Thrown) * bool :=
  (json bodyUsed body, true).

(** [await response.json()] on a response without a body: the empty text
    is read, which is not JSON, and there is no body to use up. *)
Definition json_of_no_body : Thrown := SyntaxError.

Definition fallback_message : JSON := JString "Failed to create transfer request".

(** [const error = await response.json();
     throw new Error(error.message || "Failed to create transfer request")] *)
Definition failure_of (body : option JSON) : Thrown :=
  match json false body with
  | inr thrown => thrown
  | inl JNull => TypeError         (* error.message throws on null *)
  | inl error =>
      match get error "message" with
      | Some message =>
          if truthy (Some message)
          then if ToString_throws message then TypeError else Error message
          else Error fallback_message
      | None => Error fallback_message
      end
  end.

(** [throw error instanceof Error ? error : new Error("Failed to ...")] *)
Definition rethrown (error : Thrown) : Thrown :=
  if instanceof_Error error then error else Error fallback_message.

Inductive CreationLog :=
| LogResponse                       (* console.log("response", response.json()) *)
| ErrCreating (error : Thrown).     (* console.error("Error creating transfer request:", error) *)

(** How a creating function ends: the value its promise resolves to or the
    reason it rejects with, what it wrote to the console, and the page
    afterwards. *)
Record Settled := {
  outcome : TransferResponse.t + Thrown;
  logged : list CreationLog;
  after : World;
}.

(** [createTransfer] of the reference class. *)
Definition createTransfer (fetched : FetchOutcome) (w : World) : Settled :=
  let attempt :=
    match fetched with
    | Rejected reason => inr reason
    | Fulfilled (NotOk body) => inr (failure_of body)
    | Fulfilled (Ok body) => json false body
    | Fulfilled (NoBody _) => inr json_of_no_body
    end in
  match attempt with
  | inl transfer =>
      {| outcome := inl transfer;
         logged := [];
         after :=
           with_this
             (set_credentials (Some (TransferResponse.transferRequestId transfer))
                (Some (TransferResponse.signature transfer))) w |}
  | inr error =>
      {| outcome := inr (rethrown error); logged := [ErrCreating error]; after := w |}
  end.

(** [createTransferAndListen] of the reference class. *)
Definition createTransferAndListen (env : Browser) (fetched : FetchOutcome)
    (onStatus onError onConnection : option Callback) (w : World) : Settled :=
  let created := createTransfer fetched w in
  match outcome created with
  | inl transfer =>
      {| outcome := inl transfer;
         logged := logged created;
         after :=
           listenToTransfer env (TransferResponse.transferRequestId transfer)
             (TransferResponse.signature transfer) onStatus onError onConnection
             (after created) |}
  | inr _ => created
  end.

(** [createTransferAndListen] of the older class, in its two parts: up to
    the [await] of the request, and from the settling of the request. *)
Definition createTransferAndListen_called
    (onStatus onError onConnection : option Callback) (w : World) : World :=
  with_this (set_callbacks onStatus onError onConnection) w.

Definition createTransferAndListen_settled (env : Browser) (fetched : FetchOutcome)
    (w : World) : Settled :=
  let attempt :=
    match fetched with
    | Rejected reason => inr reason
    | Fulfilled (NotOk body) => inr (failure_of body)
    | Fulfilled (Ok body) => json false body
    | Fulfilled (NoBody _) => inr json_of_no_body
    end in
  match attempt with
  | inl transfer =>
      {| outcome := inl transfer;
         logged := [];
         after :=
           connectWebSocket env
             (with_this
                (set_credentials (Some (TransferResponse.transferRequestId transfer))
                   (Some (TransferResponse.signature transfer))) w) |}
  | inr error =>
      {| outcome := inr (rethrown error); logged := [ErrCreating error]; after := w |}
  end.

(** [createTransferRequest] of the class without a socket.  A successful
    response is read twice: once for the console, where the promise is
    logged and not awaited, and once for the result. *)
Definition createTransferRequest (fetched : FetchOutcome)
    : (TransferResponse.t + Thrown) * list CreationLog :=
  let attempt :=
    match fetched with
    | Rejected reason => (inr reason, [])
    | Fulfilled (NotOk body) => (inr (failure_of body), [])
    | Fulfilled (NoBody false) => (inr json_of_no_body, [])
    | Fulfilled (Ok body) =>
        let '(_, bodyUsed) := read false body in
        let '(transfer, _) := read bodyUsed body in
        (transfer, [LogResponse])
    | Fulfilled (NoBody true) => (inr json_of_no_body, [LogResponse])
    end in
  match attempt with
  | (inl transfer, log) => (inl transfer, log)
  | (inr error, log) => (inr (rethrown error), log ++ [ErrCreating error])
  end.

(** ** What a step may do *)

Definition is_send (e : Effect) : bool :=
  match e with
  | SocketSend _ _ => true
  | _ => false
  end.

Definition is_close_call (e : Effect) : bool :=
  match e with
  | SocketCloseCall _ _ => true
  | _ => false
  end.

(** The delay [attemptReconnect] computes when it finds the counter at
    [attempts]. *)
Definition next_delay (c : ZenobiaClient) : Z :=
  Z.min (1000 * 2 ^ reconnectAttempts c) (backoffCap (variant c)).

(** What one effect of a step can be, given the client [c] and the next
    timer identifier [next] before the step and the client [c'] after it:
    an observer call goes to the registered observer; a socket is
    constructed on the endpoint of the stored credentials; only the held
    socket is closed, and without a code; only the pong text is sent; a
    timer is set below the cap with the next backoff delay; only the
    remembered timer is cleared. *)
Definition effect_ok (env : Browser) (c : ZenobiaClient) (next : Z)
    (c' : ZenobiaClient) (e : Effect) : Prop :=
  match e with
  | CallStatus cb _ => onStatusCallback c' = Some cb
  | CallError cb _ => onErrorCallback c' = Some cb
  | CallConnection cb _ => onConnectionCallback c' = Some cb
  | NewWebSocket wsUrl =>
      wsUrl = wsUrl_of env c'
      /\ truthy_str (transferId c') && truthy_str (signature c') = true
  | SocketCloseCall s code => code = None /\ socket c = Some s
  | SocketSend _ data => data = pong_frame
  | SetTimeout id delay =>
      id = next /\ delay = next_delay c
      /\ reconnectAttempts c < maxReconnectAttempts c
  | ClearTimeout id => reconnectTimeout c = Some id /\ id <> 0
  end.

(** ** Concrete pages *)

Definition https_page : Browser :=
  {| location_protocol := "https:";
     JSON_parse := json_parse;
     WebSocket_throws := fun _ => false |}.

Definition http_page : Browser :=
  {| location_protocol := "http:";
     JSON_parse := json_parse;
     WebSocket_throws := fun _ => false |}.

(** A client of the reference class on a secure page, tracking transfer
    [t1] with all three observers, its socket open. *)
Definition tracking : World :=
  run https_page
    [ListenToTransfer "t1" "s1" (Some 1%nat) (Some 2%nat) (Some 3%nat);
     SocketOpened 0%nat]
    (page (new_ZenobiaClient false)).

Definition ping_text : string := JSON_stringify [("type", "ping")].

(** Six abnormal closures in a row, each retry timer firing in between:
    the connection drops, and every attempt to come back fails. *)
Definition six_closures : list Event :=
  [SocketClosed 0%nat 1006; TimerFired 1; SocketClosed 1%nat 1006; TimerFired 2;
   SocketClosed 2%nat 1006; TimerFired 3; SocketClosed 3%nat 1006; TimerFired 4;
   SocketClosed 4%nat 1006; TimerFired 5; SocketClosed 5%nat 1006; TimerFired 6].

Definition exhausted : World := run https_page six_closures tracking.

(** A frame of a type the protocol does not have, and a status frame
    without its [transfer]. *)
Definition unknown_type_text : string := JSON_stringify [("type", "foo")].
Definition status_without_transfer_text : string := JSON_stringify [("type", "status")].


Definition error_text : string :=
  JSON_stringify [("type", "error"); ("message", "transfer expired")].

(** The older class tracking transfer [t1] with three observers, its
    socket open; and a status frame and an error frame whose interpolated
    value has a property named [toString]. *)
Definition tracking_older : World :=
  run https_page
    [SetObservers (Some 1%nat) (Some 2%nat) (Some 3%nat);
     TransferCreated "t1" "s1"; SocketOpened 0%nat]
    (page new_BundledClient).


Definition unprintable_error_text : string :=
  "{" +:+ quote "type" +:+ ":" +:+ quote "error" +:+ ","
      +:+ quote "message" +:+ ":" +:+ JSON_stringify [("toString", "x")] +:+ "}".

(** The caller has called [listenToTransfer] a second time while
    tracking, and the second socket has opened; the close event of the
    first socket is still to come. *)
Definition relistened : World :=
  run https_page
    [ListenToTransfer "t1" "s1" None None None; SocketOpened 1%nat] tracking.

(** The close event of the first socket has arrived after the second
    socket opened: the handler has cleared [this.socket], and the client
    no longer holds the open socket 1. *)
Definition orphaned : World :=
  step https_page (SocketClosed 0%nat 1005) relistened.

(** The caller has disconnected the tracking client. *)
Definition disconnected : World := disconnect tracking.

(** The close event of the socket that [disconnect] closed has arrived,
    with the code browsers report for a [close()] without arguments. *)
Definition disconnected_closed : World :=
  step https_page (SocketClosed 0%nat 1005) disconnected.

(** The frames [onmessage] acts on: a status with a truthy [transfer], an
    error with a truthy [message], a ping. *)
Definition recognized (d : JSON) : bool :=
  (strict_eq_str (get d "type") "status" && truthy (get d "transfer"))
  || (strict_eq_str (get d "type") "error" && truthy (get d "message"))
  || strict_eq_str (get d "type") "ping".

(** What the error observer receives for a frame that cannot be read. *)
Definition parse_failure_report (w : World) : list Effect :=
  match onErrorCallback (this w) with
  | Some cb => [CallError cb (JString "Failed to parse message")]
  | None => []
  end.

(** * Properties *)

(** ** Traces *)

Lemma count_app p (l l' : list Effect) : count p (l ++ l') = count p l + count p l'.
Proof. induction l as [|e l IH]; simpl; [reflexivity | rewrite IH; lia]. Qed.

Lemma count_nonneg p (l : list Effect) : 0 <= count p l.
Proof. induction l as [|e l IH]; simpl; [lia | destruct (p e); lia]. Qed.

Lemma since_app (w w' : World) (l : list Effect) :
  trace w' = trace w ++ l -> since w w' = l.
Proof. intros H. unfold since. rewrite H. apply drop_app_length. Qed.

Lemma since_refl (w : World) : since w w = [].
Proof. apply since_app. symmetry. apply app_nil_r. Qed.

Lemma extends_refl w : extends w w.
Proof. exists []. symmetry. apply app_nil_r. Qed.

Lemma extends_trans w1 w2 w3 : extends w1 w2 -> extends w2 w3 -> extends w1 w3.
Proof.
  intros [l1 H1] [l2 H2]. exists (l1 ++ l2).
  rewrite H2, H1. symmetry. apply app_assoc.
Qed.

Lemma since_trans w1 w2 w3 :
  extends w1 w2 -> extends w2 w3 -> since w1 w3 = since w1 w2 ++ since w2 w3.
Proof.
  intros [l1 H1] [l2 H2].
  rewrite (since_app w1 w2 l1 H1), (since_app w2 w3 l2 H2).
  apply since_app. rewrite H2, H1. symmetry. apply app_assoc.
Qed.

Lemma count_since p w w' :
  extends w w' -> count p (since w w') = count p (trace w') - count p (trace w).
Proof.
  intros [l H]. rewrite (since_app w w' l H), H, count_app. lia.
Qed.


Lemma extends_same w w' : trace w' = trace w -> extends w w'.
Proof. intros H. exists []. rewrite H. symmetry. apply app_nil_r. Qed.

(** ** Symbolic execution of the handlers

    [open_rec] opens a world and its client so that every projection
    computes, [exec] runs the methods, [cases] follows every branch. *)

Ltac open_rec w :=
  let c := fresh "c" in
  destruct w as [c ? ? ? ? ? ?];
  destruct c as [[] ? ? ? ? ? ? ? ? ? ?].

Ltac exec :=
  cbv beta iota zeta delta
    [listenToTransfer disconnect reconnect_callback
     onopen onclose onerror onmessage logging_throws parse_failed
     attemptReconnect connectWebSocket
     new_WebSocket setTimeout clearTimeout socket_close
     notifyConnectionStatus notifyStatus notifyError readyState_of
     log_bundled log emit with_this with_sockets with_timers
     set_socket set_reconnectTimeout set_reconnectAttempts set_credentials
     set_callbacks keep_or
     this sockets next_socket timers next_timer trace console
     variant socket reconnectTimeout reconnectAttempts maxReconnectAttempts
     transferId signature wsBaseUrl
     onStatusCallback onErrorCallback onConnectionCallback
     truthy_num truthy_str].

Ltac exec_all :=
  cbv beta iota zeta delta
    [listenToTransfer disconnect reconnect_callback
     onopen onclose onerror onmessage logging_throws parse_failed
     attemptReconnect connectWebSocket
     new_WebSocket setTimeout clearTimeout socket_close
     notifyConnectionStatus notifyStatus notifyError readyState_of
     log_bundled log emit with_this with_sockets with_timers
     set_socket set_reconnectTimeout set_reconnectAttempts set_credentials
     set_callbacks keep_or
     this sockets next_socket timers next_timer trace console
     variant socket reconnectTimeout reconnectAttempts maxReconnectAttempts
     transferId signature wsBaseUrl
     onStatusCallback onErrorCallback onConnectionCallback
     truthy_num truthy_str] in *.

Ltac cases :=
  repeat match goal with
  | |- context [match ?x with _ => _ end] => is_var x; destruct x; exec
  | |- context [if ?b then _ else _] => destruct b eqn:?; exec
  | |- context [match ?x with _ => _ end] => destruct x eqn:?; exec
  end.

Ltac split_matches :=
  repeat match goal with
  | |- context [match ?x with _ => _ end] => destruct x
  end.

(** Follows [onmessage] through the tests on the parsed frame. *)
Ltac dispatch :=
  cbn [get strict_eq_str truthy andb];
  repeat match goal with
  | |- context [if ?b && ?c then _ else _] => destruct (b && c) eqn:?
  | |- context [if strict_eq_str ?a ?b then _ else _] =>
      destruct (strict_eq_str a b) eqn:?
  | |- context [match get ?d ?k with _ => _ end] => destruct (get d k) eqn:?
  | |- context [match assoc ?k ?l with _ => _ end] => destruct (assoc k l) eqn:?
  end.

Ltac list_eq :=
  rewrite <- ?app_assoc; simpl; rewrite ?app_nil_r; try reflexivity.

Ltac ext :=
  unfold extends; exec; eexists; rewrite <- ?app_assoc; simpl;
  first [reflexivity | symmetry; apply app_nil_r].

(** ** What each method leaves alone *)

Lemma connectWebSocket_unfold env w :
  connectWebSocket env w = open_socket env (close_existing w).
Proof. reflexivity. Qed.

Lemma close_existing_spec w :
  let w' := close_existing w in
  this w' = set_socket None (this w)
  /\ timers w' = timers w
  /\ next_timer w' = next_timer w
  /\ next_socket w' = next_socket w
  /\ console w' = console w
  /\ trace w'
     = trace w ++
       match socket (this w) with
       | Some s =>
           SocketCloseCall s None
           :: match onConnectionCallback (this w) with
              | Some cb => [CallConnection cb false]
              | None => []
              end
       | None => []
       end.
Proof.
  unfold close_existing.
  open_rec w; exec; cases; repeat split; try reflexivity; list_eq.
Qed.

Lemma open_socket_missing env w :
  truthy_str (transferId (this w)) && truthy_str (signature (this w)) = false ->
  open_socket env w = log ErrMissingCredentials w.
Proof.
  unfold open_socket. intros H.
  destruct (truthy_str (transferId (this w))), (truthy_str (signature (this w)));
    try discriminate; reflexivity.
Qed.

Lemma open_socket_present env w :
  truthy_str (transferId (this w)) && truthy_str (signature (this w)) = true ->
  let w' := open_socket env w in
  let wsUrl := wsUrl_of env (this w) in
  this w' = set_socket (socket (this w')) (this w)
  /\ timers w' = timers w
  /\ next_timer w' = next_timer w
  /\ trace w'
     = trace w ++ NewWebSocket wsUrl ::
         (if WebSocket_throws env wsUrl
          then match onErrorCallback (this w) with
               | Some cb =>
                   [CallError cb (JString "Failed to establish WebSocket connection")]
               | None => []
               end
          else [])
  /\ (WebSocket_throws env wsUrl = false ->
      socket (this w') = Some (next_socket w)
      /\ sockets w' = <[next_socket w := {| url := wsUrl; readyState := CONNECTING |}]> (sockets w)).
Proof.
  unfold open_socket. intros H.
  apply andb_true_iff in H. destruct H as [H1 H2]. rewrite H1, H2. simpl.
  unfold new_WebSocket.
  destruct (WebSocket_throws env _) eqn:Hthrow.
  - open_rec w; exec; cases; repeat split; try reflexivity; try discriminate; list_eq.
  - open_rec w; exec; cases; repeat split; try reflexivity; try discriminate; list_eq.
Qed.

Lemma extends_connectWebSocket env w : extends w (connectWebSocket env w).
Proof.
  rewrite connectWebSocket_unfold.
  destruct (close_existing_spec w) as (_ & _ & _ & _ & _ & Htr).
  apply extends_trans with (close_existing w); [eexists; exact Htr|].
  destruct (truthy_str (transferId (this (close_existing w)))
            && truthy_str (signature (this (close_existing w)))) eqn:E.
  - destruct (open_socket_present env _ E) as (_ & _ & _ & Htr' & _).
    eexists. exact Htr'.
  - rewrite (open_socket_missing env _ E). apply extends_same. reflexivity.
Qed.

Lemma extends_attemptReconnect w : extends w (attemptReconnect w).
Proof. open_rec w; exec; cases; ext. Qed.

Lemma extends_disconnect w : extends w (disconnect w).
Proof. open_rec w; exec; cases; ext. Qed.

(** [connectWebSocket] touches no field of the client but [socket], no
    timer, and schedules nothing; without credentials it constructs no
    socket. *)
Lemma connectWebSocket_frame env w :
  let w' := connectWebSocket env w in
  this w' = set_socket (socket (this w')) (this w)
  /\ timers w' = timers w
  /\ next_timer w' = next_timer w
  /\ count is_retry (trace w') = count is_retry (trace w)
  /\ (truthy_str (transferId (this w)) && truthy_str (signature (this w)) = false ->
      count is_connect (trace w') = count is_connect (trace w)).
Proof.
  cbv zeta. rewrite connectWebSocket_unfold.
  destruct (close_existing_spec w) as (Hthis & Ht & Hn & _ & _ & Htr).
  assert (Hcred : truthy_str (transferId (this (close_existing w)))
                  && truthy_str (signature (this (close_existing w)))
                  = truthy_str (transferId (this w)) && truthy_str (signature (this w)))
    by (rewrite Hthis; reflexivity).
  assert (Hr1 : count is_retry (trace (close_existing w)) = count is_retry (trace w)).
  { rewrite Htr, count_app.
    destruct (socket (this w)), (onConnectionCallback (this w)); simpl; lia. }
  assert (Hc1 : count is_connect (trace (close_existing w)) = count is_connect (trace w)).
  { rewrite Htr, count_app.
    destruct (socket (this w)), (onConnectionCallback (this w)); simpl; lia. }
  destruct (truthy_str (transferId (this w)) && truthy_str (signature (this w))) eqn:E.
  - destruct (open_socket_present env _ Hcred) as (Hthis' & Ht' & Hn' & Htr' & _).
    rewrite Ht', Hn', Htr', count_app, Hr1, Ht, Hn.
    repeat split; try discriminate.
    + rewrite Hthis' at 1. rewrite Hthis. reflexivity.
    + simpl. cases; simpl; lia.
  - rewrite (open_socket_missing env _ Hcred). simpl.
    rewrite Hthis, Ht, Hn, Hr1, Hc1. repeat split.
Qed.

(** [attemptReconnect], field by field. *)
Lemma attemptReconnect_spec w :
  let k := reconnectAttempts (this w) + 1 in
  let delay := Z.min (1000 * 2 ^ (k - 1)) (backoffCap (variant (this w))) in
  let cleared :=
    if truthy_num (reconnectTimeout (this w))
    then [ClearTimeout (default 0 (reconnectTimeout (this w)))] else [] in
  let w' := attemptReconnect w in
  this w' = set_reconnectTimeout (Some (next_timer w)) (set_reconnectAttempts k (this w))
  /\ timers w'
     = <[next_timer w := delay]>
         (if truthy_num (reconnectTimeout (this w))
          then delete (default 0 (reconnectTimeout (this w))) (timers w)
          else timers w)
  /\ next_timer w' = next_timer w + 1
  /\ sockets w' = sockets w
  /\ next_socket w' = next_socket w
  /\ trace w' = trace w ++ cleared ++ [SetTimeout (next_timer w) delay]
  /\ console w' = console w ++ [LogReconnectIn delay k].
Proof.
  open_rec w; exec; cases; repeat split; try reflexivity; list_eq.
Qed.

(** [onclose] is the notification, then possibly [attemptReconnect]. *)
Lemma onclose_unfold code w :
  onclose code w
  = let w1 := log_bundled (LogDisconnected (transferId (this w)) code)
                (with_this (set_socket None) (notifyConnectionStatus false w)) in
    if negb (code =? 1000)
       && (reconnectAttempts (this w) <? maxReconnectAttempts (this w))
    then attemptReconnect w1 else w1.
Proof.
  destruct w as [[[] ? ? ? ? ? ? ? ? ? [?|]] ? ? ? ? ? ?]; reflexivity.
Qed.

Lemma onclose_notification code w :
  let w1 := log_bundled (LogDisconnected (transferId (this w)) code)
              (with_this (set_socket None) (notifyConnectionStatus false w)) in
  this w1 = set_socket None (this w)
  /\ timers w1 = timers w
  /\ next_timer w1 = next_timer w
  /\ sockets w1 = sockets w
  /\ next_socket w1 = next_socket w
  /\ trace w1
     = trace w ++ match onConnectionCallback (this w) with
                  | Some cb => [CallConnection cb false]
                  | None => []
                  end.
Proof.
  open_rec w; exec; cases; repeat split; try reflexivity; list_eq.
Qed.

(** [onmessage] by the kind of frame. *)
Lemma onmessage_frame env sock data w :
  let w' := onmessage env sock data w in
  this w' = this w /\ sockets w' = sockets w /\ next_socket w' = next_socket w
  /\ timers w' = timers w /\ next_timer w' = next_timer w.
Proof.
  unfold onmessage.
  destruct (JSON_parse env data) as [[]|]; dispatch;
    open_rec w; exec; cases; repeat split; reflexivity.
Qed.

Lemma onmessage_unreadable env sock data w :
  JSON_parse env data = None \/ JSON_parse env data = Some JNull ->
  trace (onmessage env sock data w) = trace w ++ parse_failure_report w.
Proof.
  unfold onmessage, parse_failure_report.
  intros [-> | ->]; open_rec w; exec; cases; list_eq.
Qed.

Lemma onmessage_unrecognized env sock data w d :
  JSON_parse env data = Some d -> d <> JNull -> recognized d = false ->
  trace (onmessage env sock data w) = trace w.
Proof.
  unfold onmessage, recognized. intros -> Hnull Hrec.
  apply orb_false_elim in Hrec. destruct Hrec as [Hrec Hping].
  apply orb_false_elim in Hrec. destruct Hrec as [Hstatus Herror].
  destruct d; try congruence; rewrite Hstatus, Herror, Hping; reflexivity.
Qed.

Lemma onmessage_ping env sock data w d :
  JSON_parse env data = Some d -> get d "type" = Some (JString "ping") ->
  readyState_of sock w = OPEN ->
  trace (onmessage env sock data w) = trace w ++ [SocketSend sock pong_frame].
Proof.
  unfold onmessage. intros -> Hty Hopen.
  destruct d; try discriminate. rewrite Hty. simpl.
  replace (readyState_of sock _) with OPEN
    by (rewrite <- Hopen; open_rec w; reflexivity).
  open_rec w; reflexivity.
Qed.

Lemma disconnect_spec w :
  let pending := truthy_num (reconnectTimeout (this w)) in
  let id := default 0 (reconnectTimeout (this w)) in
  let closes :=
    match socket (this w) with
    | Some s => readyState_of s w <? 2
    | None => false
    end in
  let w' := disconnect w in
  this w'
  = set_credentials None None
      (set_socket (if closes then None else socket (this w))
         (set_reconnectTimeout
            (if pending then None else reconnectTimeout (this w)) (this w)))
  /\ timers w' = (if pending then delete id (timers w) else timers w)
  /\ next_timer w' = next_timer w
  /\ sockets w'
     = (if closes
        then alter (fun ws => if readyState ws <? CLOSING
                              then set_readyState CLOSING ws else ws)
               (default 0%nat (socket (this w))) (sockets w)
        else sockets w)
  /\ trace w'
     = trace w ++ (if pending then [ClearTimeout id] else [])
         ++ (if closes
             then SocketCloseCall (default 0%nat (socket (this w))) None
                  :: match onConnectionCallback (this w) with
                     | Some cb => [CallConnection cb false]
                     | None => []
                     end
             else []).
Proof.
  open_rec w; exec; cases; repeat split; try reflexivity; list_eq.
Qed.

Lemma onopen_spec w :
  let w' := onopen w in
  this w' = set_reconnectAttempts 0 (this w)
  /\ timers w' = timers w /\ next_timer w' = next_timer w
  /\ sockets w' = sockets w /\ next_socket w' = next_socket w
  /\ trace w'
     = trace w ++ match onConnectionCallback (this w) with
                  | Some cb => [CallConnection cb true]
                  | None => []
                  end.
Proof.
  open_rec w; exec; cases; repeat split; try reflexivity; list_eq.
Qed.

Lemma onerror_spec w :
  let w' := onerror w in
  this w' = this w
  /\ timers w' = timers w /\ next_timer w' = next_timer w
  /\ sockets w' = sockets w /\ next_socket w' = next_socket w
  /\ trace w'
     = trace w ++ match onErrorCallback (this w) with
                  | Some cb => [CallError cb (JString "WebSocket error occurred")]
                  | None => []
                  end.
Proof.
  open_rec w; exec; cases; repeat split; try reflexivity; list_eq.
Qed.

Lemma onmessage_trace env sock data w :
  exists l, trace (onmessage env sock data w) = trace w ++ l
            /\ count is_retry l = 0 /\ count is_connect l = 0.
Proof.
  unfold onmessage.
  destruct (JSON_parse env data) as [[]|]; dispatch;
    open_rec w; exec; cases; eexists;
    (split; [rewrite <- ?app_assoc; simpl;
             first [reflexivity | symmetry; apply app_nil_r]
            | split; reflexivity]).
Qed.

(** ** One step of the event loop *)

Lemma bookkeeping_same opens w w' :
  extends w w' -> this w' = this w ->
  count is_retry (trace w') = count is_retry (trace w) ->
  bookkeeping opens w w'.
Proof.
  intros Hext Hthis Hr. unfold bookkeeping, counter_moves. rewrite Hthis.
  repeat split; try assumption. left. split; [reflexivity | assumption].
Qed.

Lemma bookkeeping_connectWebSocket env opens w :
  bookkeeping opens w (connectWebSocket env w).
Proof.
  destruct (connectWebSocket_frame env w) as (Hthis & _ & _ & Hr & _).
  unfold bookkeeping, counter_moves. rewrite Hthis.
  repeat split; try reflexivity; [apply extends_connectWebSocket|].
  left. split; [reflexivity | exact Hr].
Qed.

Lemma bookkeeping_disconnect opens w : bookkeeping opens w (disconnect w).
Proof.
  destruct (disconnect_spec w) as (Hthis & _ & _ & _ & Htr).
  unfold bookkeeping, counter_moves. split; [eexists; exact Htr|].
  rewrite Hthis, Htr. repeat split; try reflexivity.
  left. split; [reflexivity|].
  rewrite !count_app. cases; simpl; lia.
Qed.

Lemma bookkeeping_onopen w : bookkeeping true w (onopen w).
Proof.
  destruct (onopen_spec w) as (Hthis & _ & _ & _ & _ & Htr).
  unfold bookkeeping, counter_moves. split; [eexists; exact Htr|].
  rewrite Hthis, Htr. repeat split; try reflexivity.
  right. right. repeat split.
  rewrite count_app. cases; simpl; lia.
Qed.

Lemma bookkeeping_onerror opens w : bookkeeping opens w (onerror w).
Proof.
  destruct (onerror_spec w) as (Hthis & _ & _ & _ & _ & Htr).
  apply bookkeeping_same; [eexists; exact Htr | exact Hthis |].
  rewrite Htr, count_app. cases; simpl; lia.
Qed.

Lemma bookkeeping_onmessage env opens sock data w :
  bookkeeping opens w (onmessage env sock data w).
Proof.
  destruct (onmessage_frame env sock data w) as (Hthis & _).
  destruct (onmessage_trace env sock data w) as (l & Htr & Hr & _).
  apply bookkeeping_same; [eexists; exact Htr | exact Hthis |].
  rewrite Htr, count_app. lia.
Qed.

Lemma bookkeeping_onclose opens code w : bookkeeping opens w (onclose code w).
Proof.
  rewrite onclose_unfold. cbv zeta.
  destruct (onclose_notification code w) as (Hthis & _ & _ & _ & _ & Htr).
  set (w1 := log_bundled _ _) in *.
  assert (Hr : count is_retry (trace w1) = count is_retry (trace w)).
  { rewrite Htr, count_app. cases; simpl; lia. }
  destruct (negb (code =? 1000)
            && (reconnectAttempts (this w) <? maxReconnectAttempts (this w))) eqn:E.
  - destruct (attemptReconnect_spec w1) as (Hthis' & _ & _ & _ & _ & Htr' & _).
    unfold bookkeeping, counter_moves. split.
    { eexists. rewrite Htr', Htr, <- app_assoc. reflexivity. }
    rewrite Hthis', Htr', Hthis.
    repeat split; try reflexivity.
    right. left. apply andb_true_iff in E. destruct E as [_ E].
    apply Z.ltb_lt in E. repeat split; [exact E|].
    rewrite !count_app, Hr. cases; simpl; lia.
  - unfold bookkeeping, counter_moves. split; [eexists; exact Htr|].
    rewrite Hthis. repeat split; try reflexivity.
    left. split; [reflexivity | exact Hr].
Qed.
(** A step that first adjusts what the bookkeeping does not look at. *)
Lemma bookkeeping_from opens w w0 w' :
  trace w0 = trace w ->
  variant (this w0) = variant (this w) ->
  maxReconnectAttempts (this w0) = maxReconnectAttempts (this w) ->
  wsBaseUrl (this w0) = wsBaseUrl (this w) ->
  reconnectAttempts (this w0) = reconnectAttempts (this w) ->
  bookkeeping opens w0 w' -> bookkeeping opens w w'.
Proof.
  unfold bookkeeping, counter_moves, extends.
  intros -> -> -> -> ->. exact (fun H => H).
Qed.

Lemma bookkeeping_refl opens w : bookkeeping opens w w.
Proof. apply bookkeeping_same; [apply extends_refl | reflexivity | reflexivity]. Qed.

Lemma bookkeeping_step env e w : bookkeeping (is_open e) w (step env e w).
Proof.
  destruct e as [tid sig a b c | a b c | tid sig | | sock | sock code | sock
                | sock data | id]; simpl.
  - destruct (variant (this w)) eqn:Hv; [|apply bookkeeping_refl].
    unfold listenToTransfer.
    eapply bookkeeping_from; [| | | | |apply bookkeeping_connectWebSocket];
      reflexivity.
  - destruct (variant (this w)) eqn:Hv; [apply bookkeeping_refl|].
    eapply bookkeeping_from; [| | | | |apply bookkeeping_refl]; reflexivity.
  - destruct (variant (this w)) eqn:Hv.
    + eapply bookkeeping_from; [| | | | |apply bookkeeping_refl]; reflexivity.
    + eapply bookkeeping_from; [| | | | |apply bookkeeping_connectWebSocket];
        reflexivity.
  - apply bookkeeping_disconnect.
  - destruct (sockets w !! sock) as [ws|]; [|apply bookkeeping_refl].
    destruct (readyState ws =? CONNECTING); [|apply bookkeeping_refl].
    eapply bookkeeping_from; [| | | | |apply bookkeeping_onopen]; reflexivity.
  - destruct (sockets w !! sock) as [ws|]; [|apply bookkeeping_refl].
    destruct (readyState ws =? CLOSED); [apply bookkeeping_refl|].
    eapply bookkeeping_from; [| | | | |apply bookkeeping_onclose]; reflexivity.
  - destruct (sockets w !! sock) as [ws|]; [|apply bookkeeping_refl].
    destruct (readyState ws =? CLOSED); [apply bookkeeping_refl|].
    apply bookkeeping_onerror.
  - destruct (sockets w !! sock) as [ws|]; [|apply bookkeeping_refl].
    destruct (readyState ws =? OPEN); [|apply bookkeeping_refl].
    apply bookkeeping_onmessage.
  - destruct (timers w !! id); [|apply bookkeeping_refl].
    unfold reconnect_callback.
    eapply bookkeeping_from; [| | | | |apply bookkeeping_connectWebSocket];
      reflexivity.
Qed.

Lemma extends_step env e w : extends w (step env e w).
Proof. apply (bookkeeping_step env e w). Qed.

Lemma extends_run env events : forall w, extends w (run env events w).
Proof.
  induction events as [|e events IH]; intros w; simpl.
  - apply extends_refl.
  - eapply extends_trans; [apply extends_step | apply IH].
Qed.

Lemma run_app env events events' w :
  run env (events ++ events') w = run env events' (run env events w).
Proof. unfold run. apply fold_left_app. Qed.

(** The class, the cap and the host are fixed at construction. *)
Lemma run_config env events : forall w,
  variant (this (run env events w)) = variant (this w)
  /\ maxReconnectAttempts (this (run env events w)) = maxReconnectAttempts (this w)
  /\ wsBaseUrl (this (run env events w)) = wsBaseUrl (this w).
Proof.
  induction events as [|e events IH]; intros w; simpl; [repeat split|].
  destruct (IH (step env e w)) as (-> & -> & ->).
  destruct (bookkeeping_step env e w) as (_ & -> & -> & -> & _). repeat split.
Qed.

(** The counter stays between 0 and the cap. *)
Lemma run_counter_range env events : forall w,
  0 <= reconnectAttempts (this w) <= maxReconnectAttempts (this w) ->
  0 <= reconnectAttempts (this (run env events w))
    <= maxReconnectAttempts (this (run env events w)).
Proof.
  induction events as [|e events IH]; intros w Hw; simpl; [exact Hw|].
  apply IH.
  destruct (bookkeeping_step env e w) as (_ & _ & Hmax & _ & Hmove).
  rewrite Hmax. destruct Hmove as [(-> & _) | [(Hlt & -> & _) | (_ & -> & _)]]; lia.
Qed.

(** Without an open in between, every retry scheduled is an increment of
    the counter. *)
Lemma run_counter_retries env events : forall w,
  forallb (fun e => negb (is_open e)) events = true ->
  reconnectAttempts (this w) <= maxReconnectAttempts (this w) ->
  let w' := run env events w in
  count is_retry (trace w') - count is_retry (trace w)
  = reconnectAttempts (this w') - reconnectAttempts (this w)
  /\ reconnectAttempts (this w') <= maxReconnectAttempts (this w).
Proof.
  induction events as [|e events IH]; intros w Hev Hw; simpl in *; [lia|].
  apply andb_true_iff in Hev. destruct Hev as [He Hev].
  destruct (bookkeeping_step env e w) as (_ & _ & Hmax & _ & Hmove).
  assert (Hw' : reconnectAttempts (this (step env e w))
                <= maxReconnectAttempts (this (step env e w))).
  { rewrite Hmax.
    destruct Hmove as [(-> & _) | [(Hlt & -> & _) | (Ho & _)]];
      [lia | lia | rewrite Ho in He; discriminate]. }
  destruct (IH (step env e w) Hev Hw') as (Hcount & Hle).
  rewrite Hmax in Hle. split; [|exact Hle].
  destruct Hmove as [(Ha & Hr) | [(Hlt & Ha & Hr) | (Ho & _)]];
    [lia | lia | rewrite Ho in He; discriminate].
Qed.

(** Once quiescent, only the caller can move the client. *)
Lemma quiescent_step env e w :
  quiescent w -> by_caller e = false -> step env e w = w.
Proof.
  intros [Ht Hs] He.
  destruct e; try discriminate; simpl.
  - destruct (sockets w !! sock) as [ws|] eqn:E; [|reflexivity].
    rewrite (Hs _ _ E). reflexivity.
  - destruct (sockets w !! sock) as [ws|] eqn:E; [|reflexivity].
    rewrite (Hs _ _ E). reflexivity.
  - destruct (sockets w !! sock) as [ws|] eqn:E; [|reflexivity].
    rewrite (Hs _ _ E). reflexivity.
  - destruct (sockets w !! sock) as [ws|] eqn:E; [|reflexivity].
    rewrite (Hs _ _ E). reflexivity.
  - rewrite Ht, lookup_empty. reflexivity.
Qed.

Lemma quiescent_run env events : forall w,
  quiescent w -> forallb (fun e => negb (by_caller e)) events = true ->
  run env events w = w.
Proof.
  induction events as [|e events IH]; intros w Hq Hev; simpl in *; [reflexivity|].
  apply andb_true_iff in Hev. destruct Hev as [He Hev].
  apply negb_true_iff in He.
  rewrite (quiescent_step env e w Hq He). apply IH; assumption.
Qed.

(** A closure that finds the counter at the cap. *)
Lemma onclose_at_cap code w :
  maxReconnectAttempts (this w) <= reconnectAttempts (this w) ->
  let w' := onclose code w in
  this w' = set_socket None (this w)
  /\ timers w' = timers w
  /\ sockets w' = sockets w
  /\ trace w'
     = trace w ++ match onConnectionCallback (this w) with
                  | Some cb => [CallConnection cb false]
                  | None => []
                  end.
Proof.
  intros Hcap. cbv zeta. rewrite onclose_unfold. cbv zeta.
  replace (reconnectAttempts (this w) <? maxReconnectAttempts (this w)) with false
    by (symmetry; apply Z.ltb_ge; exact Hcap).
  rewrite andb_false_r.
  destruct (onclose_notification code w) as (? & ? & _ & ? & _ & ?).
  repeat split; assumption.
Qed.

(** ** The pending timer is the remembered one *)

Lemma tracked_same w w' :
  timers w' = timers w -> next_timer w' = next_timer w ->
  reconnectTimeout (this w') = reconnectTimeout (this w) ->
  timers_tracked w -> timers_tracked w'.
Proof. unfold timers_tracked. intros -> -> ->. exact (fun H => H). Qed.

Lemma tracked_page c : reconnectTimeout c = None -> timers_tracked (page c).
Proof.
  intros _. split; [simpl; lia|]. simpl. intros id delay H.
  rewrite lookup_empty in H. discriminate.
Qed.

(** What is left once the remembered timer is cleared. *)
Lemma tracked_cleared w :
  timers_tracked w ->
  (if truthy_num (reconnectTimeout (this w))
   then delete (default 0 (reconnectTimeout (this w))) (timers w)
   else timers w) = ∅.
Proof.
  intros [_ Htr]. apply map_empty. intros k.
  destruct (truthy_num (reconnectTimeout (this w))) eqn:E.
  - destruct (decide (k = default 0 (reconnectTimeout (this w)))) as [->|Hne].
    + apply lookup_delete_eq.
    + rewrite lookup_delete_ne by congruence.
      destruct (timers w !! k) as [d|] eqn:Hk; [|reflexivity].
      destruct (Htr k d Hk) as [Hrt _]. rewrite Hrt in Hne. simpl in Hne. congruence.
  - destruct (timers w !! k) as [d|] eqn:Hk; [|reflexivity].
    destruct (Htr k d Hk) as [Hrt Hnz]. rewrite Hrt in E. simpl in E.
    apply negb_false_iff, Z.eqb_eq in E. contradiction.
Qed.

Lemma tracked_connectWebSocket env w :
  timers_tracked w -> timers_tracked (connectWebSocket env w).
Proof.
  destruct (connectWebSocket_frame env w) as (Hthis & Ht & Hn & _).
  apply tracked_same; [exact Ht | exact Hn | rewrite Hthis; reflexivity].
Qed.

Lemma tracked_attemptReconnect w :
  timers_tracked w -> timers_tracked (attemptReconnect w).
Proof.
  intros Hw. pose proof (tracked_cleared w Hw) as Hclr. destruct Hw as [Hpos _].
  destruct (attemptReconnect_spec w) as (Hthis & Ht & Hn & _).
  unfold timers_tracked. rewrite Hthis, Ht, Hn, Hclr. split; [lia|].
  simpl. intros id delay H.
  destruct (decide (id = next_timer w)) as [->|Hne].
  - split; [reflexivity | lia].
  - rewrite lookup_insert_ne, lookup_empty in H by congruence. discriminate.
Qed.

Lemma tracked_onclose code w : timers_tracked w -> timers_tracked (onclose code w).
Proof.
  intros Hw. rewrite onclose_unfold. cbv zeta.
  destruct (onclose_notification code w) as (Hthis & Ht & Hn & _).
  assert (timers_tracked
            (log_bundled (LogDisconnected (transferId (this w)) code)
               (with_this (set_socket None) (notifyConnectionStatus false w)))) as Hw1
    by (revert Hw; apply tracked_same; [exact Ht | exact Hn | rewrite Hthis; reflexivity]).
  destruct (_ && _); [apply tracked_attemptReconnect|]; exact Hw1.
Qed.

Lemma tracked_disconnect w : timers_tracked w -> timers_tracked (disconnect w).
Proof.
  intros Hw. pose proof (tracked_cleared w Hw) as Hclr. destruct Hw as [Hpos _].
  destruct (disconnect_spec w) as (_ & Ht & Hn & _).
  unfold timers_tracked. rewrite Ht, Hn, Hclr. split; [exact Hpos|].
  intros id delay H. rewrite lookup_empty in H. discriminate.
Qed.

Lemma tracked_step env e w : timers_tracked w -> timers_tracked (step env e w).
Proof.
  intros Hw.
  destruct e as [tid sig a b c | a b c | tid sig | | sock | sock code | sock
                | sock data | id]; simpl.
  - destruct (variant (this w)); [|exact Hw].
    apply tracked_connectWebSocket. revert Hw. apply tracked_same; reflexivity.
  - destruct (variant (this w)); [exact Hw|].
    revert Hw. apply tracked_same; reflexivity.
  - destruct (variant (this w)).
    + revert Hw. apply tracked_same; reflexivity.
    + apply tracked_connectWebSocket. revert Hw. apply tracked_same; reflexivity.
  - apply tracked_disconnect, Hw.
  - destruct (sockets w !! sock) as [ws|]; [|exact Hw].
    destruct (readyState ws =? CONNECTING); [|exact Hw].
    match goal with |- timers_tracked (onopen ?w0) =>
      destruct (onopen_spec w0) as (Hthis & Ht & Hn & _) end.
    revert Hw. apply tracked_same; [exact Ht | exact Hn | rewrite Hthis; reflexivity].
  - destruct (sockets w !! sock) as [ws|]; [|exact Hw].
    destruct (readyState ws =? CLOSED); [exact Hw|].
    apply tracked_onclose. revert Hw. apply tracked_same; reflexivity.
  - destruct (sockets w !! sock) as [ws|]; [|exact Hw].
    destruct (readyState ws =? CLOSED); [exact Hw|].
    destruct (onerror_spec w) as (Hthis & Ht & Hn & _).
    revert Hw. apply tracked_same; [exact Ht | exact Hn | rewrite Hthis; reflexivity].
  - destruct (sockets w !! sock) as [ws|]; [|exact Hw].
    destruct (readyState ws =? OPEN); [|exact Hw].
    destruct (onmessage_frame env sock data w) as (Hthis & _ & _ & Ht & Hn).
    revert Hw. apply tracked_same; [exact Ht | exact Hn | rewrite Hthis; reflexivity].
  - destruct (timers w !! id) eqn:Hid; [|exact Hw].
    unfold reconnect_callback. apply tracked_connectWebSocket.
    destruct Hw as [Hpos Htr]. split; [exact Hpos|]. simpl.
    intros k d Hk. apply lookup_delete_Some in Hk. destruct Hk as [_ Hk].
    exact (Htr k d Hk).
Qed.

Lemma tracked_run env events : forall w,
  timers_tracked w -> timers_tracked (run env events w).
Proof.
  induction events as [|e events IH]; intros w Hw; simpl; [exact Hw|].
  apply IH, tracked_step, Hw.
Qed.

(** ** Without credentials the browser alone opens nothing *)

Lemma closed_same w w' l :
  this w' = this w -> trace w' = trace w ++ l -> count is_connect l = 0 ->
  no_credentials w ->
  no_credentials w' /\ count is_connect (trace w') = count is_connect (trace w).
Proof.
  unfold no_credentials. intros -> -> Hl Hw. rewrite count_app. split; [exact Hw | lia].
Qed.

Lemma closed_connectWebSocket env w :
  no_credentials w ->
  no_credentials (connectWebSocket env w)
  /\ count is_connect (trace (connectWebSocket env w)) = count is_connect (trace w).
Proof.
  intros [Htid Hsig].
  destruct (connectWebSocket_frame env w) as (Hthis & _ & _ & _ & Hconn).
  split; [unfold no_credentials; rewrite Hthis; split; assumption|].
  apply Hconn. rewrite Htid. reflexivity.
Qed.

Lemma closed_onclose code w :
  no_credentials w ->
  no_credentials (onclose code w)
  /\ count is_connect (trace (onclose code w)) = count is_connect (trace w).
Proof.
  intros Hw. rewrite onclose_unfold. cbv zeta.
  destruct (onclose_notification code w) as (Hthis & _ & _ & _ & _ & Htr).
  set (w1 := log_bundled _ _) in *.
  assert (Hc : count is_connect (trace w1) = count is_connect (trace w)).
  { rewrite Htr, count_app. cases; simpl; lia. }
  destruct (_ && _).
  - destruct (attemptReconnect_spec w1) as (Hthis' & _ & _ & _ & _ & Htr' & _).
    unfold no_credentials. rewrite Hthis', Htr', Hthis, !count_app, Hc.
    split; [exact Hw|]. cases; simpl; lia.
  - unfold no_credentials. rewrite Hthis. split; [exact Hw | exact Hc].
Qed.

Lemma closed_step env e w :
  by_caller e = false -> no_credentials w ->
  no_credentials (step env e w)
  /\ count is_connect (trace (step env e w)) = count is_connect (trace w).
Proof.
  intros He Hw.
  destruct e as [tid sig a b c | a b c | tid sig | | sock | sock code | sock
                | sock data | id]; try discriminate; simpl.
  - destruct (sockets w !! sock) as [ws|]; [|split; [exact Hw | reflexivity]].
    destruct (readyState ws =? CONNECTING); [|split; [exact Hw | reflexivity]].
    match goal with |- context [onopen ?w0] =>
      destruct (onopen_spec w0) as (Hthis & _ & _ & _ & _ & Htr) end.
    unfold no_credentials. rewrite Hthis, Htr, count_app.
    split; [exact Hw|]. simpl. cases; simpl; lia.
  - destruct (sockets w !! sock) as [ws|]; [|split; [exact Hw | reflexivity]].
    destruct (readyState ws =? CLOSED); [split; [exact Hw | reflexivity]|].
    apply (closed_onclose code (with_sockets _ w)). exact Hw.
  - destruct (sockets w !! sock) as [ws|]; [|split; [exact Hw | reflexivity]].
    destruct (readyState ws =? CLOSED); [split; [exact Hw | reflexivity]|].
    destruct (onerror_spec w) as (Hthis & _ & _ & _ & _ & Htr).
    eapply closed_same; [exact Hthis | exact Htr | | exact Hw]. cases; reflexivity.
  - destruct (sockets w !! sock) as [ws|]; [|split; [exact Hw | reflexivity]].
    destruct (readyState ws =? OPEN); [|split; [exact Hw | reflexivity]].
    destruct (onmessage_frame env sock data w) as (Hthis & _).
    destruct (onmessage_trace env sock data w) as (l & Htr & _ & Hc).
    eapply closed_same; [exact Hthis | exact Htr | exact Hc | exact Hw].
  - destruct (timers w !! id); [|split; [exact Hw | reflexivity]].
    unfold reconnect_callback.
    apply (closed_connectWebSocket env (log _ (with_timers _ w))). exact Hw.
Qed.

Lemma closed_run env events : forall w,
  forallb (fun e => negb (by_caller e)) events = true -> no_credentials w ->
  count is_connect (trace (run env events w)) = count is_connect (trace w).
Proof.
  induction events as [|e events IH]; intros w Hev Hw; simpl in *; [reflexivity|].
  apply andb_true_iff in Hev. destruct Hev as [He Hev]. apply negb_true_iff in He.
  destruct (closed_step env e w He Hw) as (Hw' & Hc).
  rewrite (IH _ Hev Hw'). exact Hc.
Qed.

(** ** The claims about single handlers *)

(** C8. Every successful open of the streaming connection resets
    [reconnectAttempts] to 0 and invokes the connection observer with
    [true] exactly once per open event: the open event of a connecting
    socket adds exactly the one call [onConnectionCallback(true)] to the
    trace and leaves the counter at 0. *)
Theorem open_resets_attempts_and_notifies_once
    (env : Browser) (w : World) (sock : nat) (ws : WebSocket) (cb : Callback)
    (Hsock : sockets w !! sock = Some ws)
    (Hconnecting : readyState ws = CONNECTING)
    (Hobserver : onConnectionCallback (this w) = Some cb) :
  let w' := step env (SocketOpened sock) w in
  reconnectAttempts (this w') = 0
  /\ since w w' = [CallConnection cb true]
  /\ readyState_of sock w' = OPEN.
Proof.
  unfold step. rewrite Hsock, Hconnecting. simpl.
  open_rec w; exec_all; subst; rewrite lookup_insert_eq.
  all: repeat split; try reflexivity.
  all: apply since_app; reflexivity.
Qed.

Lemma open_resets_attempts_and_notifies_once_witness :
  let w := listenToTransfer https_page "t1" "s1" None None (Some 3%nat)
             (page (new_ZenobiaClient false)) in
  let w' := step https_page (SocketOpened 0%nat) w in
  reconnectAttempts (this w') = 0
  /\ since w w' = [CallConnection 3%nat true]
  /\ readyState_of 0%nat w' = OPEN.
Proof.
  apply (open_resets_attempts_and_notifies_once https_page _ 0%nat
           {| url := "wss://transfer-status.zenobiapay.com/transfers/t1/ws?token=s1";
              readyState := CONNECTING |} 3%nat);
    vm_compute; reflexivity.
Defined.

(** C3. A connection closure carrying the normal-closure code (1000) never
    triggers an automatic reconnect attempt, for every value of the attempt
    counter: whatever the state of the client, the close event with code
    1000 schedules no timer, constructs no socket, and leaves the pending
    timers and the attempt counter as they were. *)
Theorem normal_closure_never_reconnects (env : Browser) (w : World) (sock : nat) :
  let w' := step env (SocketClosed sock 1000) w in
  count is_retry (since w w') = 0
  /\ count is_connect (since w w') = 0
  /\ timers w' = timers w
  /\ next_timer w' = next_timer w
  /\ reconnectAttempts (this w') = reconnectAttempts (this w)
  /\ reconnectTimeout (this w') = reconnectTimeout (this w).
Proof.
  unfold step.
  destruct (sockets w !! sock) as [ws|];
    [destruct (readyState ws =? CLOSED)|];
    try (rewrite since_refl; repeat split; reflexivity).
  rewrite onclose_unfold. simpl.
  match goal with |- context [log_bundled ?l (with_this ?f (notifyConnectionStatus ?b ?w0))] =>
    destruct (onclose_notification 1000 w0) as (Hthis & Ht & Hn & _ & _ & Htr)
  end.
  simpl in *. rewrite Hthis, Ht, Hn.
  erewrite since_app; [|rewrite Htr; reflexivity].
  destruct (onConnectionCallback (this w)); repeat split; reflexivity.
Qed.

(** C2. For every reconnect attempt with attempt index [k >= 1], the
    scheduled retry delay equals [min(baseDelay * 2^(k-1), capDelay)]
    milliseconds with [baseDelay = 1000], and the attempt counter is
    incremented before the delay is computed: [attemptReconnect] moves the
    counter to [k], one more than before, and the one timer it sets has the
    delay computed from [k]; the cap is 30000 in the reference class and
    5000 in the older one. *)
Theorem reconnect_delay_is_capped_exponential (w : World)
    (Hcounter : 0 <= reconnectAttempts (this w)) :
  let k := reconnectAttempts (this w) + 1 in
  let capDelay := match variant (this w) with Reference => 30000 | Bundled => 5000 end in
  let delay := Z.min (1000 * 2 ^ (k - 1)) capDelay in
  let w' := attemptReconnect w in
  1 <= k
  /\ reconnectAttempts (this w') = k
  /\ count is_retry (since w w') = 1
  /\ SetTimeout (next_timer w) delay ∈ since w w'
  /\ timers w' !! next_timer w = Some delay
  /\ reconnectTimeout (this w') = Some (next_timer w)
  /\ console w' = console w ++ [LogReconnectIn delay k].
Proof.
  destruct (attemptReconnect_spec w) as (Hthis & Ht & Hn & _ & _ & Htr & Hc).
  cbv zeta. rewrite Hthis, Ht, Hc. rewrite (since_app _ _ _ Htr).
  replace (backoffCap (variant (this w)))
    with (match variant (this w) with Reference => 30000 | Bundled => 5000 end)
    by (destruct (variant (this w)); reflexivity).
  repeat split; try reflexivity.
  - lia.
  - rewrite count_app. destruct (truthy_num _); simpl; lia.
  - apply elem_of_app. right. apply list_elem_of_singleton. reflexivity.
  - apply lookup_insert_eq.
Qed.

Lemma reconnect_delay_is_capped_exponential_witness :
  let w := run https_page
             [ListenToTransfer "t1" "s1" None None None; SocketOpened 0%nat;
              SocketClosed 0%nat 1006; TimerFired 1; SocketClosed 1%nat 1006;
              TimerFired 2] (page (new_ZenobiaClient false)) in
  let w' := attemptReconnect w in
  reconnectAttempts (this w) = 2
  /\ reconnectAttempts (this w') = 3
  /\ SetTimeout 3 4000 ∈ since w w'
  /\ timers w' !! 3 = Some 4000.
Proof.
  pose proof (reconnect_delay_is_capped_exponential
                (run https_page
                   [ListenToTransfer "t1" "s1" None None None; SocketOpened 0%nat;
                    SocketClosed 0%nat 1006; TimerFired 1; SocketClosed 1%nat 1006;
                    TimerFired 2] (page (new_ZenobiaClient false)))) as H.
  cbv zeta in *.
  destruct H as (_ & Hk & _ & Hin & Ht & _); [vm_compute; congruence|].
  split; [vm_compute; reflexivity|].
  split; [exact Hk|]. split; [exact Hin| exact Ht].
Defined.

(** C10. Calling [listenToTransfer] with any observer argument omitted
    leaves the previously registered callback of that kind unchanged (it
    is neither cleared nor replaced), while [transferId] and [signature]
    are always overwritten with the supplied values. *)
Theorem listenToTransfer_keeps_omitted_observers
    (env : Browser) (w : World) (tid sig : string)
    (onStatus onError onConnection : option Callback) :
  let after a b c := this (listenToTransfer env tid sig a b c w) in
  onStatusCallback (after None onError onConnection) = onStatusCallback (this w)
  /\ onErrorCallback (after onStatus None onConnection) = onErrorCallback (this w)
  /\ onConnectionCallback (after onStatus onError None) = onConnectionCallback (this w)
  /\ transferId (after onStatus onError onConnection) = Some tid
  /\ signature (after onStatus onError onConnection) = Some sig.
Proof.
  cbv zeta. unfold listenToTransfer.
  repeat split;
    match goal with |- context [connectWebSocket env ?w0] =>
      destruct (connectWebSocket_frame env w0) as (-> & _)
    end; reflexivity.
Qed.

(** C7. For every receipt of the frame [{"type":"ping"}] while the
    connection is in the open state, the controller sends exactly one
    outbound frame [{"type":"pong"}] and invokes no observer: a frame that
    parses to an object whose [type] is ["ping"], arriving on an open
    socket, adds one [send] of the pong text on that socket to the trace
    and nothing else, and changes neither the client nor any socket. *)
Theorem ping_is_answered_with_one_pong
    (env : Browser) (w : World) (sock : nat) (data : string) (d : JSON)
    (Hparse : JSON_parse env data = Some d)
    (Hping : get d "type" = Some (JString "ping"))
    (Hopen : readyState_of sock w = OPEN) :
  let w' := onmessage env sock data w in
  since w w' = [SocketSend sock pong_frame]
  /\ count is_observer_call (since w w') = 0
  /\ pong_frame = "{" +:+ dquote +:+ "type" +:+ dquote +:+ ":"
                  +:+ dquote +:+ "pong" +:+ dquote +:+ "}"
  /\ this w' = this w
  /\ sockets w' = sockets w.
Proof.
  cbv zeta.
  rewrite (since_app _ _ _ (onmessage_ping env sock data w d Hparse Hping Hopen)).
  destruct (onmessage_frame env sock data w) as (Hthis & Hsocks & _).
  repeat split; [exact Hthis | exact Hsocks].
Qed.

Lemma ping_is_answered_with_one_pong_witness :
  json_parse ping_text = Some (JObject [("type", JString "ping")])
  /\ readyState_of 0%nat tracking = OPEN
  /\ since tracking (onmessage https_page 0%nat ping_text tracking)
     = [SocketSend 0%nat pong_frame].
Proof.
  assert (Hparse : JSON_parse https_page ping_text
                   = Some (JObject [("type", JString "ping")]))
    by (vm_compute; reflexivity).
  assert (Hopen : readyState_of 0%nat tracking = OPEN) by (vm_compute; reflexivity).
  split; [exact Hparse|]. split; [exact Hopen|].
  exact (proj1 (ping_is_answered_with_one_pong https_page tracking 0%nat ping_text
                  (JObject [("type", JString "ping")]) Hparse eq_refl Hopen)).
Defined.

(** C5, as the code has it.  Attempting to open a connection when
    [transferId] or [signature] is absent (null or empty) makes no
    connection attempt and reports the failure on the console only: no
    socket is constructed, the client holds none afterwards, the error
    observer is not invoked, and the console receives the one line
    "Cannot connect to WebSocket: Missing transfer ID or signature". *)
Theorem connect_without_credentials_only_logs (env : Browser) (w : World)
    (Hmissing : truthy_str (transferId (this w)) && truthy_str (signature (this w))
                = false) :
  let w' := connectWebSocket env w in
  count is_connect (since w w') = 0
  /\ next_socket w' = next_socket w
  /\ socket (this w') = None
  /\ count is_error_call (since w w') = 0
  /\ console w' = console w ++ [ErrMissingCredentials].
Proof.
  cbv zeta.
  pose proof (extends_connectWebSocket env w) as Hext.
  destruct (connectWebSocket_frame env w) as (_ & _ & _ & _ & Hconn).
  rewrite !(count_since _ _ _ Hext), (Hconn Hmissing).
  rewrite connectWebSocket_unfold.
  destruct (close_existing_spec w) as (Hthis & _ & _ & Hns & Hcon & Htr).
  rewrite open_socket_missing by (rewrite Hthis; exact Hmissing).
  simpl. rewrite Hthis, Hns, Hcon, Htr, count_app.
  repeat split; try lia.
  destruct (socket (this w)), (onConnectionCallback (this w)); simpl; lia.
Qed.

Lemma connect_without_credentials_only_logs_witness :
  truthy_str (transferId (this disconnected_closed)) = false
  /\ count is_connect
       (since disconnected_closed (connectWebSocket https_page disconnected_closed)) = 0
  /\ console (connectWebSocket https_page disconnected_closed)
     = console disconnected_closed ++ [ErrMissingCredentials].
Proof.
  assert (H : truthy_str (transferId (this disconnected_closed))
              && truthy_str (signature (this disconnected_closed)) = false)
    by (vm_compute; reflexivity).
  split; [vm_compute; reflexivity|].
  pose proof (connect_without_credentials_only_logs https_page disconnected_closed H)
    as (H1 & _ & _ & _ & H5).
  split; [exact H1 | exact H5].
Defined.

(** C5 as stated fails: with the credentials cleared and an error observer
    registered, the retry that fires after [disconnect] runs into the guard
    of [connectWebSocket]; nothing at all is added to the trace, so the
    error observer is not invoked. *)
Lemma missing_credentials_not_reported_to_error_observer :
  transferId (this disconnected_closed) = None
  /\ signature (this disconnected_closed) = None
  /\ onErrorCallback (this disconnected_closed) = Some 2%nat
  /\ timers disconnected_closed !! 1 = Some 1000
  /\ since disconnected_closed (step https_page (TimerFired 1) disconnected_closed) = []
  /\ since disconnected_closed (connectWebSocket https_page disconnected_closed) = []
  /\ count is_error_call
       (since disconnected_closed (connectWebSocket https_page disconnected_closed)) <> 1.
Proof. vm_compute. repeat split; congruence. Qed.

(** C6, as the code has it.  A frame never changes the client, the sockets
    or the timers, so the connection stays open.  A text frame that fails
    to parse as JSON (or parses to [null]) invokes the error observer
    exactly once, with "Failed to parse message"; a frame that parses but
    has an unrecognized [type], or lacks the fields of its type, is
    ignored: no observer is invoked and nothing is sent. *)
Theorem unreadable_frame_reported_unrecognized_ignored
    (env : Browser) (w : World) (sock : nat) (data : string) :
  let w' := onmessage env sock data w in
  (this w' = this w /\ sockets w' = sockets w /\ timers w' = timers w)
  /\ (JSON_parse env data = None \/ JSON_parse env data = Some JNull ->
      forall cb, onErrorCallback (this w) = Some cb ->
      since w w' = [CallError cb (JString "Failed to parse message")])
  /\ (forall d, JSON_parse env data = Some d -> d <> JNull -> recognized d = false ->
      since w w' = []).
Proof.
  cbv zeta.
  destruct (onmessage_frame env sock data w) as (Hthis & Hsocks & _ & Ht & _).
  split; [repeat split; assumption|]. split.
  - intros Hbad cb Hcb. apply since_app.
    rewrite (onmessage_unreadable env sock data w Hbad).
    unfold parse_failure_report. rewrite Hcb. reflexivity.
  - intros d Hd Hnull Hrec. apply since_app.
    rewrite (onmessage_unrecognized env sock data w d Hd Hnull Hrec).
    symmetry. apply app_nil_r.
Qed.

Lemma unreadable_frame_reported_unrecognized_ignored_witness :
  (json_parse "not-json" = None
   /\ since tracking (onmessage https_page 0%nat "not-json" tracking)
      = [CallError 2%nat (JString "Failed to parse message")])
  /\ (json_parse unknown_type_text = Some (JObject [("type", JString "foo")])
      /\ since tracking (onmessage https_page 0%nat unknown_type_text tracking) = []).
Proof.
  assert (H1 : JSON_parse https_page "not-json" = None) by (vm_compute; reflexivity).
  assert (H2 : JSON_parse https_page unknown_type_text
               = Some (JObject [("type", JString "foo")]))
    by (vm_compute; reflexivity).
  assert (H3 : onErrorCallback (this tracking) = Some 2%nat) by (vm_compute; reflexivity).
  split; (split; [assumption|]).
  - exact (proj1 (proj2 (unreadable_frame_reported_unrecognized_ignored
                           https_page tracking 0%nat "not-json"))
             (or_introl H1) 2%nat H3).
  - refine (proj2 (proj2 (unreadable_frame_reported_unrecognized_ignored
                            https_page tracking 0%nat unknown_type_text))
              (JObject [("type", JString "foo")]) H2 _ _);
      [discriminate | vm_compute; reflexivity].
Defined.

(** C6 as stated fails: a frame with an unrecognized [type], and a status
    frame without [transfer], both parse; the error observer, although
    registered, is not invoked for either. *)
Lemma unrecognized_frame_not_reported :
  onErrorCallback (this tracking) = Some 2%nat
  /\ json_parse unknown_type_text = Some (JObject [("type", JString "foo")])
  /\ since tracking (step https_page (SocketMessage 0%nat unknown_type_text) tracking) = []
  /\ json_parse status_without_transfer_text = Some (JObject [("type", JString "status")])
  /\ since tracking
       (step https_page (SocketMessage 0%nat status_without_transfer_text) tracking) = []
  /\ count is_error_call
       (since tracking (step https_page (SocketMessage 0%nat unknown_type_text) tracking))
     <> 1.
Proof. vm_compute. repeat split; congruence. Qed.

(** C1. For every sequence of abnormal closures, the number of automatic
    reconnect attempts never exceeds the configured attempt cap
    ([maxReconnectAttempts], 6 in the reference class); once
    [reconnectAttempts] has reached the cap, a further abnormal closure
    schedules no retry and the session remains closed until an explicit
    caller action.

    Over any run of events without a successful open, started with the
    counter within the cap, at most cap-minus-counter retries are
    scheduled and the counter stays within the cap.  If the run ends with
    the counter at the cap, the close event of a live socket, whatever its
    code, schedules nothing and constructs nothing and leaves the client
    without a socket; and if no retry was pending and no other socket was
    alive, no later event of the browser changes anything at all. *)
Theorem retries_never_exceed_the_cap
    (env : Browser) (w : World) (events : list Event)
    (Hrange : 0 <= reconnectAttempts (this w) <= maxReconnectAttempts (this w))
    (Hclosures : forallb (fun e => negb (is_open e)) events = true) :
  let cap := maxReconnectAttempts (this w) in
  let w1 := run env events w in
  count is_retry (since w w1) <= cap - reconnectAttempts (this w)
  /\ count is_retry (since w w1) <= cap
  /\ 0 <= reconnectAttempts (this w1) <= cap
  /\ maxReconnectAttempts (this w1) = cap
  /\ (forall isTest, maxReconnectAttempts (new_ZenobiaClient isTest) = 6)
  /\ (forall sock ws code,
        reconnectAttempts (this w1) = cap ->
        sockets w1 !! sock = Some ws -> readyState ws <> CLOSED ->
        let w2 := step env (SocketClosed sock code) w1 in
        count is_retry (since w1 w2) = 0
        /\ count is_connect (since w1 w2) = 0
        /\ timers w2 = timers w1
        /\ socket (this w2) = None
        /\ reconnectAttempts (this w2) = cap
        /\ (timers w1 = ∅ -> all_closed_but sock w1 ->
            forall later, forallb (fun e => negb (by_caller e)) later = true ->
            run env later w2 = w2)).
Proof.
  cbv zeta.
  destruct (run_counter_retries env events w Hclosures (proj2 Hrange)) as (Hcount & Hle).
  destruct (run_config env events w) as (_ & Hmax & _).
  pose proof (run_counter_range env events w Hrange) as Hrange1.
  rewrite Hmax in Hrange1.
  rewrite (count_since _ _ _ (extends_run env events w)).
  split; [lia|]. split; [lia|]. split; [exact Hrange1|]. split; [exact Hmax|].
  split; [reflexivity|].
  intros sock ws code Hcap Hsock Hlive. simpl.
  rewrite Hsock. destruct (readyState ws =? CLOSED) eqn:E;
    [apply Z.eqb_eq in E; contradiction|].
  set (w1 := run env events w) in *.
  set (w1' := with_sockets (insert sock (set_readyState CLOSED ws)) w1).
  destruct (onclose_at_cap code w1') as (Hthis & Ht & Hs & Htr);
    [simpl; rewrite Hmax, Hcap; lia|].
  rewrite (since_app w1 _ _ Htr), Hthis, Ht.
  split; [destruct (onConnectionCallback _); reflexivity|].
  split; [destruct (onConnectionCallback _); reflexivity|].
  split; [reflexivity|]. split; [reflexivity|]. split; [exact Hcap|].
  intros Hnone Hothers later Hlater.
  apply quiescent_run; [|exact Hlater].
  split; [rewrite Ht; exact Hnone|].
  rewrite Hs. simpl. intros s ws' Hlook.
  destruct (decide (s = sock)) as [->|Hne].
  - rewrite lookup_insert_eq in Hlook. injection Hlook as <-. reflexivity.
  - rewrite lookup_insert_ne in Hlook by congruence.
    destruct (Hothers s ws' Hlook) as [?|?]; [contradiction | assumption].
Qed.

Lemma retries_never_exceed_the_cap_witness :
  count is_retry (since tracking exhausted) <= 6
  /\ reconnectAttempts (this exhausted) = 6
  /\ count is_retry
       (since exhausted (step https_page (SocketClosed 6%nat 1006) exhausted)) = 0
  /\ run https_page [TimerFired 6; SocketOpened 6%nat; SocketClosed 6%nat 1006]
       (step https_page (SocketClosed 6%nat 1006) exhausted)
     = step https_page (SocketClosed 6%nat 1006) exhausted.
Proof.
  assert (Hrange : 0 <= reconnectAttempts (this tracking)
                     <= maxReconnectAttempts (this tracking))
    by (vm_compute; split; discriminate).
  assert (Hclosures : forallb (fun e => negb (is_open e)) six_closures = true)
    by (vm_compute; reflexivity).
  pose proof (retries_never_exceed_the_cap https_page tracking six_closures
                Hrange Hclosures) as H.
  cbv zeta in H. unfold exhausted.
  assert (Hcap : maxReconnectAttempts (this tracking) = 6) by (vm_compute; reflexivity).
  rewrite Hcap in H.
  destruct H as (_ & Hbound & _ & _ & _ & Hlast).
  assert (Hfull : reconnectAttempts (this (run https_page six_closures tracking)) = 6)
    by (vm_compute; reflexivity).
  assert (Hsock : sockets (run https_page six_closures tracking) !! 6%nat
                  = Some {| url := "wss://transfer-status.zenobiapay.com/transfers/t1/ws?token=s1";
                            readyState := CONNECTING |})
    by (vm_compute; reflexivity).
  assert (Hlive : readyState
                    {| url := "wss://transfer-status.zenobiapay.com/transfers/t1/ws?token=s1";
                       readyState := CONNECTING |} <> CLOSED)
    by (vm_compute; discriminate).
  destruct (Hlast 6%nat _ 1006 Hfull Hsock Hlive) as (Hnone & _ & _ & _ & _ & Hquiet).
  assert (Htimers : timers (run https_page six_closures tracking) = ∅)
    by (vm_compute; reflexivity).
  assert (Hothers : all_closed_but 6%nat (run https_page six_closures tracking))
    by (unfold all_closed_but; apply (bool_decide_unpack _); vm_compute; exact I).
  split; [exact Hbound|]. split; [exact Hfull|]. split; [exact Hnone|].
  apply (Hquiet Htimers Hothers). vm_compute. reflexivity.
Defined.

(** What [disconnect] does achieve.  On any client reached from its
    construction it cancels any pending retry timer, calls [close()] on
    the socket in [this.socket] if that is connecting or open, notifies
    the connection observer "disconnected" when it did, and clears the
    stored [transferId] and [signature].  As long as the credentials stay
    cleared, that is as long as only socket and timer events follow, no
    socket is constructed again.  Observers are still invoked, and a
    socket the client no longer holds is not closed. *)
Theorem disconnect_tears_down
    (env : Browser) (v : Variant) (isTest : bool) (history later : list Event)
    (Hlater : forallb (fun e => negb (by_caller e)) later = true) :
  let w := run env history (page (new_client v isTest)) in
  let w' := disconnect w in
  timers w' = ∅
  /\ (forall id delay, timers w !! id = Some delay -> ClearTimeout id ∈ since w w')
  /\ transferId (this w') = None
  /\ signature (this w') = None
  /\ (forall s, socket (this w) = Some s -> readyState_of s w < 2 ->
      (exists code, SocketCloseCall s code ∈ since w w')
      /\ readyState_of s w' = CLOSING
      /\ socket (this w') = None
      /\ forall cb, onConnectionCallback (this w) = Some cb ->
           CallConnection cb false ∈ since w w')
  /\ count is_connect (since w' (run env later w')) = 0.
Proof.
  cbv zeta. set (w := run env history (page (new_client v isTest))).
  assert (Hw : timers_tracked w).
  { apply tracked_run, tracked_page. destruct v; reflexivity. }
  pose proof (tracked_cleared w Hw) as Hclr.
  destruct (disconnect_spec w) as (Hthis & Ht & _ & Hs & Htr).
  rewrite (since_app _ _ _ Htr).
  split; [rewrite Ht; exact Hclr|]. split.
  { intros id delay Hid. destruct Hw as [_ Hw]. destruct (Hw id delay Hid) as [Hrt Hnz].
    rewrite Hrt. simpl. apply Z.eqb_neq in Hnz. rewrite Hnz. simpl. left. }
  split; [rewrite Hthis; reflexivity|]. split; [rewrite Hthis; reflexivity|]. split.
  { intros s Hsock Hlive. rewrite Hthis. unfold readyState_of in *.
    rewrite Hs, Hsock in *. apply Z.ltb_lt in Hlive. rewrite Hlive. simpl.
    split; [exists None; apply elem_of_app; right; left|]. split.
    - rewrite lookup_alter_eq.
      destruct (sockets w !! s) as [ws|]; simpl in *; [|discriminate].
      unfold CLOSING. rewrite Hlive. reflexivity.
    - split; [reflexivity|]. intros cb ->.
      apply elem_of_app. right. right. left. }
  rewrite (count_since _ _ _ (extends_run env later _)).
  rewrite (closed_run env later (disconnect w) Hlater); [lia|].
  unfold no_credentials. rewrite Hthis. split; reflexivity.
Qed.

Lemma disconnect_tears_down_witness :
  timers disconnected = ∅
  /\ transferId (this disconnected) = None
  /\ count is_connect
       (since disconnected
          (run https_page [SocketClosed 0%nat 1005; TimerFired 1] disconnected)) = 0.
Proof.
  assert (Hlater : forallb (fun e => negb (by_caller e))
                     [SocketClosed 0%nat 1005; TimerFired 1] = true)
    by (vm_compute; reflexivity).
  pose proof (disconnect_tears_down https_page Reference false
                [ListenToTransfer "t1" "s1" (Some 1%nat) (Some 2%nat) (Some 3%nat);
                 SocketOpened 0%nat]
                [SocketClosed 0%nat 1005; TimerFired 1] Hlater)
    as (Htimers & _ & Htid & _ & _ & Hclosed).
  split; [exact Htimers|]. split; [exact Htid | exact Hclosed].
Defined.

(** C4 does not hold of the code.  [disconnect] calls [close()] without a
    code, and the socket it closes keeps its handlers.  On a client that
    tracks a transfer over an open socket: when the close event of that
    socket arrives after [disconnect] has returned, the connection observer
    is invoked again, even if the event carries the normal-closure code;
    with any other code (a [close()] without arguments yields 1005) a retry
    timer is set as well; and if the response to a [createTransfer] arrives
    before that timer fires, the retry opens a connection, to a transfer
    nobody asked to listen to.  Nor does [disconnect] close every open
    connection: on a client whose [this.socket] was cleared by the close
    event of an earlier socket, it closes nothing and the open socket
    stays open. *)
Lemma close_event_after_disconnect_invokes_observer :
  since tracking disconnected = [SocketCloseCall 0%nat None; CallConnection 3%nat false]
  /\ since disconnected (step https_page (SocketClosed 0%nat 1000) disconnected)
     = [CallConnection 3%nat false]
  /\ since disconnected (step https_page (SocketClosed 0%nat 1005) disconnected)
     = [CallConnection 3%nat false; SetTimeout 1 1000]
  /\ count is_observer_call
       (since disconnected (step https_page (SocketClosed 0%nat 1000) disconnected))
     <> 0
  /\ since disconnected
       (run https_page
          [SocketClosed 0%nat 1005; TransferCreated "t2" "s2"; TimerFired 1]
          disconnected)
     = [CallConnection 3%nat false; SetTimeout 1 1000;
        NewWebSocket "wss://transfer-status.zenobiapay.com/transfers/t2/ws?token=s2"]
  /\ readyState_of 1%nat orphaned = OPEN
  /\ since orphaned (disconnect orphaned) = [ClearTimeout 1]
  /\ readyState_of 1%nat (disconnect orphaned) = OPEN.
Proof. vm_compute. repeat split; congruence. Qed.

(** C9. For every non-empty [transferId] and [signature], the stream
    endpoint the controller connects to equals
    [<scheme>//<statusHost>/transfers/<transferId>/ws?token=<signature>],
    where the scheme is the secure variant ([wss:]) if and only if the
    hosting context is secure, and the host is the fixed status-service
    host: [connectWebSocket] constructs exactly one socket, on that
    endpoint, with the host stored in the client, and on every client
    reached from its construction that host is the one chosen by the
    constructor. *)
Theorem stream_endpoint_format
    (env : Browser) (w : World) (tid sig : string)
    (Htid : transferId (this w) = Some tid)
    (Hsig : signature (this w) = Some sig)
    (Htid_nonempty : tid <> "")
    (Hsig_nonempty : sig <> "") :
  let scheme := if String.eqb (location_protocol env) "https:" then "wss:" else "ws:" in
  let endpoint :=
    scheme +:+ "//" +:+ wsBaseUrl (this w) +:+ "/transfers/" +:+ tid
      +:+ "/ws?token=" +:+ sig in
  let w' := connectWebSocket env w in
  count is_connect (since w w') = 1
  /\ NewWebSocket endpoint ∈ since w w'
  /\ (scheme = "wss:" <-> location_protocol env = "https:")
  /\ (WebSocket_throws env endpoint = false ->
      exists s, socket (this w') = Some s
                /\ sockets w' !! s = Some {| url := endpoint; readyState := CONNECTING |})
  /\ (forall v isTest history,
        wsBaseUrl (this (run env history (page (new_client v isTest))))
        = match v with
          | Reference =>
              if isTest then "transfer-status-test.zenobiapay.com"
              else "transfer-status.zenobiapay.com"
          | Bundled => "transfer-status.zenobiapay.com"
          end).
Proof.
  cbv zeta.
  destruct (close_existing_spec w) as (Hthis & _ & _ & _ & _ & Htr).
  assert (Hcred : truthy_str (transferId (this (close_existing w)))
                  && truthy_str (signature (this (close_existing w))) = true).
  { rewrite Hthis. simpl. rewrite Htid, Hsig. simpl.
    apply String.eqb_neq in Htid_nonempty, Hsig_nonempty.
    rewrite Htid_nonempty, Hsig_nonempty. reflexivity. }
  destruct (open_socket_present env _ Hcred) as (_ & _ & _ & Htr' & Hnew).
  assert (Hurl : wsUrl_of env (this (close_existing w))
                 = (if String.eqb (location_protocol env) "https:" then "wss:" else "ws:")
                     +:+ "//" +:+ wsBaseUrl (this w) +:+ "/transfers/" +:+ tid
                     +:+ "/ws?token=" +:+ sig).
  { rewrite Hthis. unfold wsUrl_of, ws_scheme. simpl. rewrite Htid, Hsig. reflexivity. }
  rewrite Hurl in *. rewrite connectWebSocket_unfold.
  erewrite since_app by (rewrite Htr', Htr, <- app_assoc; reflexivity).
  split.
  { rewrite !count_app. simpl. cases; simpl; lia. }
  split.
  { apply elem_of_app. right. left. }
  split.
  { destruct (String.eqb_spec (location_protocol env) "https:") as [->|Hne];
      split; intros H; congruence. }
  split.
  { intros Hok. destruct (Hnew Hok) as (Hsock & Hsocks).
    eexists. split; [exact Hsock|]. rewrite Hsocks. apply lookup_insert_eq. }
  intros v isTest history.
  destruct (run_config env history (page (new_client v isTest))) as (_ & _ & ->).
  destruct v; reflexivity.
Qed.

Lemma stream_endpoint_format_witness :
  NewWebSocket "wss://transfer-status.zenobiapay.com/transfers/t1/ws?token=s1"
    ∈ since tracking (connectWebSocket https_page tracking)
  /\ NewWebSocket "ws://transfer-status-test.zenobiapay.com/transfers/t1/ws?token=s1"
       ∈ since (with_this (set_credentials (Some "t1") (Some "s1"))
                  (page (new_ZenobiaClient true)))
           (connectWebSocket http_page
              (with_this (set_credentials (Some "t1") (Some "s1"))
                 (page (new_ZenobiaClient true)))).
Proof.
  split.
  - exact (proj1 (proj2 (stream_endpoint_format https_page tracking "t1" "s1"
                           eq_refl eq_refl
                           ltac:(discriminate) ltac:(discriminate)))).
  - exact (proj1 (proj2 (stream_endpoint_format http_page
                           (with_this (set_credentials (Some "t1") (Some "s1"))
                              (page (new_ZenobiaClient true)))
                           "t1" "s1" eq_refl eq_refl
                           ltac:(discriminate) ltac:(discriminate)))).
Defined.

(** * Further properties of the client *)

(** ** The effects of one step *)

Lemma effect_ok_pre env c0 c next c' e :
  socket c0 = socket c -> reconnectTimeout c0 = reconnectTimeout c ->
  reconnectAttempts c0 = reconnectAttempts c ->
  maxReconnectAttempts c0 = maxReconnectAttempts c ->
  variant c0 = variant c ->
  effect_ok env c0 next c' e -> effect_ok env c next c' e.
Proof.
  intros Hs Hrt Ha Hm Hv. unfold effect_ok, next_delay.
  destruct e; rewrite ?Hs, ?Hrt, ?Ha, ?Hm, ?Hv; exact (fun H => H).
Qed.

Lemma effects_pre env w0 w w' :
  trace w0 = trace w -> next_timer w0 = next_timer w ->
  socket (this w0) = socket (this w) ->
  reconnectTimeout (this w0) = reconnectTimeout (this w) ->
  reconnectAttempts (this w0) = reconnectAttempts (this w) ->
  maxReconnectAttempts (this w0) = maxReconnectAttempts (this w) ->
  variant (this w0) = variant (this w) ->
  Forall (effect_ok env (this w0) (next_timer w0) (this w')) (since w0 w') ->
  Forall (effect_ok env (this w) (next_timer w) (this w')) (since w w').
Proof.
  intros Htr Hn Hs Hrt Ha Hm Hv. unfold since. rewrite Htr, Hn.
  intros H. eapply Forall_impl; [exact H|].
  intros e. apply effect_ok_pre; assumption.
Qed.

Lemma effects_none env w w' :
  trace w' = trace w ->
  Forall (effect_ok env (this w) (next_timer w) (this w')) (since w w').
Proof.
  intros H. rewrite (since_app w w' []) by (rewrite H, app_nil_r; reflexivity).
  constructor.
Qed.

Lemma effects_connectWebSocket env w :
  Forall (effect_ok env (this w) (next_timer w) (this (connectWebSocket env w)))
    (since w (connectWebSocket env w)).
Proof.
  destruct (connectWebSocket_frame env w) as (Hthis' & _).
  rewrite Hthis'. revert Hthis'. rewrite connectWebSocket_unfold. intros _.
  destruct (close_existing_spec w) as (Hthis & _ & _ & _ & _ & Htr).
  destruct (truthy_str (transferId (this (close_existing w)))
            && truthy_str (signature (this (close_existing w)))) eqn:E.
  - destruct (open_socket_present env _ E) as (_ & _ & _ & Htr' & _).
    erewrite since_app by (rewrite Htr', Htr, <- app_assoc; reflexivity).
    rewrite Hthis in *. simpl in E.
    apply Forall_app. split.
    + destruct (socket (this w)) as [s|] eqn:Hs; [|constructor].
      constructor; [split; [reflexivity | exact Hs]|].
      destruct (onConnectionCallback (this w)) as [cb|] eqn:Hcb; constructor;
        [exact Hcb | constructor].
    + simpl. constructor; [split; [reflexivity | exact E]|].
      destruct (WebSocket_throws env _); [|constructor].
      destruct (onErrorCallback (this w)) as [cb|] eqn:Hcb; constructor;
        [exact Hcb | constructor].
  - rewrite (open_socket_missing env _ E).
    erewrite since_app by (simpl; exact Htr).
    destruct (socket (this w)) as [s|] eqn:Hs; [|constructor].
    constructor; [split; [reflexivity | exact Hs]|].
    destruct (onConnectionCallback (this w)) as [cb|] eqn:Hcb; constructor;
      [exact Hcb | constructor].
Qed.

Lemma effects_of_list env w w' l :
  trace w' = trace w ++ l ->
  Forall (effect_ok env (this w) (next_timer w) (this w')) l ->
  Forall (effect_ok env (this w) (next_timer w) (this w')) (since w w').
Proof. intros H. rewrite (since_app w w' l H). exact (fun H => H). Qed.

Lemma effects_onmessage env sock data w :
  Forall (effect_ok env (this w) (next_timer w) (this (onmessage env sock data w)))
    (since w (onmessage env sock data w)).
Proof.
  destruct (onmessage_frame env sock data w) as (-> & _).
  assert (exists l, trace (onmessage env sock data w) = trace w ++ l
                    /\ Forall (effect_ok env (this w) (next_timer w) (this w)) l)
    as (l & Htr & Hl).
  { unfold onmessage.
    destruct (JSON_parse env data) as [[]|]; dispatch;
      open_rec w; exec; cases; eexists;
      (split; [rewrite <- ?app_assoc; simpl;
               first [reflexivity | symmetry; apply app_nil_r]
              | repeat constructor]). }
  rewrite (since_app _ _ l Htr). exact Hl.
Qed.

Lemma effects_onopen env w :
  Forall (effect_ok env (this w) (next_timer w) (this (onopen w))) (since w (onopen w)).
Proof.
  destruct (onopen_spec w) as (Hthis & _ & _ & _ & _ & Htr).
  apply (effects_of_list env _ _ _ Htr). rewrite Hthis.
  destruct (onConnectionCallback (this w)) as [cb|] eqn:Hcb; constructor;
    [exact Hcb | constructor].
Qed.

Lemma effects_onerror env w :
  Forall (effect_ok env (this w) (next_timer w) (this (onerror w))) (since w (onerror w)).
Proof.
  destruct (onerror_spec w) as (Hthis & _ & _ & _ & _ & Htr).
  apply (effects_of_list env _ _ _ Htr). rewrite Hthis.
  destruct (onErrorCallback (this w)) as [cb|] eqn:Hcb; constructor;
    [exact Hcb | constructor].
Qed.

Lemma truthy_num_Some rt :
  truthy_num rt = true -> rt = Some (default 0 rt) /\ default 0 rt <> 0.
Proof.
  destruct rt as [id|]; simpl; [|discriminate].
  intros H. apply negb_true_iff, Z.eqb_neq in H. split; [reflexivity | exact H].
Qed.

Lemma effects_disconnect env w :
  Forall (effect_ok env (this w) (next_timer w) (this (disconnect w)))
    (since w (disconnect w)).
Proof.
  destruct (disconnect_spec w) as (Hthis & _ & _ & _ & Htr).
  apply (effects_of_list env _ _ _ Htr). rewrite Hthis.
  apply Forall_app. split.
  - destruct (truthy_num (reconnectTimeout (this w))) eqn:E; [|constructor].
    constructor; [|constructor]. exact (truthy_num_Some _ E).
  - destruct (socket (this w)) as [s|] eqn:Hs; [|constructor].
    destruct (readyState_of s w <? 2); [|constructor].
    constructor; [split; [reflexivity | exact Hs]|].
    destruct (onConnectionCallback (this w)) as [cb|] eqn:Hcb; constructor;
      [exact Hcb | constructor].
Qed.

Lemma effects_onclose env code w :
  Forall (effect_ok env (this w) (next_timer w) (this (onclose code w)))
    (since w (onclose code w)).
Proof.
  rewrite onclose_unfold. cbv zeta.
  destruct (onclose_notification code w) as (Hthis & _ & Hn & _ & _ & Htr).
  set (w1 := log_bundled _ _) in *.
  destruct (negb (code =? 1000)
            && (reconnectAttempts (this w) <? maxReconnectAttempts (this w))) eqn:E.
  - destruct (attemptReconnect_spec w1) as (Hthis' & _ & _ & _ & _ & Htr' & _).
    apply andb_true_iff in E. destruct E as [_ E]. apply Z.ltb_lt in E.
    erewrite since_app by (rewrite Htr', Htr, <- app_assoc; reflexivity).
    rewrite Hthis', Hthis, Hn. simpl.
    apply Forall_app. split.
    + destruct (onConnectionCallback (this w)) as [cb|] eqn:Hcb; constructor;
        [exact Hcb | constructor].
    + apply Forall_app. split.
      * destruct (truthy_num (reconnectTimeout (this w))) eqn:Ert; [|constructor].
        constructor; [|constructor]. exact (truthy_num_Some _ Ert).
      * constructor; [|constructor]. split; [reflexivity|]. split; [|exact E].
        unfold next_delay. replace (reconnectAttempts (this w) + 1 - 1)
          with (reconnectAttempts (this w)) by lia. reflexivity.
  - apply (effects_of_list env _ _ _ Htr). rewrite Hthis.
    destruct (onConnectionCallback (this w)) as [cb|] eqn:Hcb; constructor;
      [exact Hcb | constructor].
Qed.

(** Every effect of every step is of the kind [effect_ok] describes. *)
Lemma step_effects env e w :
  Forall (effect_ok env (this w) (next_timer w) (this (step env e w)))
    (since w (step env e w)).
Proof.
  destruct e as [tid sig a b c | a b c | tid sig | | sock | sock code | sock
                | sock data | id]; simpl.
  - destruct (variant (this w)); [|apply effects_none; reflexivity].
    unfold listenToTransfer.
    eapply effects_pre; [| | | | | | |apply effects_connectWebSocket]; reflexivity.
  - destruct (variant (this w)); apply effects_none; reflexivity.
  - destruct (variant (this w)); [apply effects_none; reflexivity|].
    eapply effects_pre; [| | | | | | |apply effects_connectWebSocket]; reflexivity.
  - apply effects_disconnect.
  - destruct (sockets w !! sock) as [ws|]; [|apply effects_none; reflexivity].
    destruct (readyState ws =? CONNECTING); [|apply effects_none; reflexivity].
    eapply effects_pre; [| | | | | | |apply effects_onopen]; reflexivity.
  - destruct (sockets w !! sock) as [ws|]; [|apply effects_none; reflexivity].
    destruct (readyState ws =? CLOSED); [apply effects_none; reflexivity|].
    eapply effects_pre; [| | | | | | |apply effects_onclose]; reflexivity.
  - destruct (sockets w !! sock) as [ws|]; [|apply effects_none; reflexivity].
    destruct (readyState ws =? CLOSED); [apply effects_none; reflexivity|].
    apply effects_onerror.
  - destruct (sockets w !! sock) as [ws|]; [|apply effects_none; reflexivity].
    destruct (readyState ws =? OPEN); [|apply effects_none; reflexivity].
    apply effects_onmessage.
  - destruct (timers w !! id); [|apply effects_none; reflexivity].
    unfold reconnect_callback.
    eapply effects_pre; [| | | | | | |apply effects_connectWebSocket]; reflexivity.
Qed.

(** A property of effects that holds of the effects of every step holds
    of everything a run adds to the trace. *)
Lemma run_effects env (P : Effect -> Prop) events :
  (forall e w, Forall P (since w (step env e w))) ->
  forall w, Forall P (since w (run env events w)).
Proof.
  intros Hstep. induction events as [|e events IH]; intros w; simpl.
  - rewrite since_refl. constructor.
  - rewrite (since_trans w (step env e w) _ (extends_step env e w) (extends_run env _ _)).
    apply Forall_app. split; [apply Hstep | apply IH].
Qed.

Lemma run_effects_inv env (I : World -> Prop) (P : Effect -> Prop) events :
  (forall e w, I w -> I (step env e w)) ->
  (forall e w, I w -> Forall P (since w (step env e w))) ->
  forall w, I w -> Forall P (since w (run env events w)).
Proof.
  intros Hinv Hstep. induction events as [|e events IH]; intros w Hw; simpl.
  - rewrite since_refl. constructor.
  - rewrite (since_trans w (step env e w) _ (extends_step env e w) (extends_run env _ _)).
    apply Forall_app. split; [apply Hstep, Hw | apply IH, Hinv, Hw].
Qed.

Lemma count_zero_Forall p (l : list Effect) :
  Forall (fun e => p e = false) l -> count p l = 0.
Proof.
  induction 1 as [|e l He _ IH]; simpl; [reflexivity | rewrite He, IH; reflexivity].
Qed.

(** [connectWebSocket] with both credentials present, in full. *)
Lemma open_socket_outcome env w :
  truthy_str (transferId (this w)) && truthy_str (signature (this w)) = true ->
  let w' := open_socket env w in
  if WebSocket_throws env (wsUrl_of env (this w))
  then this w' = this w /\ sockets w' = sockets w /\ next_socket w' = next_socket w
  else this w' = set_socket (Some (next_socket w)) (this w)
       /\ sockets w'
          = <[next_socket w := {| url := wsUrl_of env (this w); readyState := CONNECTING |}]>
              (sockets w)
       /\ next_socket w' = S (next_socket w).
Proof.
  unfold open_socket. intros H.
  apply andb_true_iff in H. destruct H as [H1 H2]. rewrite H1, H2. simpl.
  unfold new_WebSocket.
  destruct (WebSocket_throws env _) eqn:Hthrow;
    open_rec w; exec; cases; repeat split; reflexivity.
Qed.

Lemma connect_present env w :
  truthy_str (transferId (this w)) && truthy_str (signature (this w)) = true ->
  let w' := connectWebSocket env w in
  let wsUrl := wsUrl_of env (this w) in
  since w w'
  = match socket (this w) with
    | Some s =>
        SocketCloseCall s None
        :: match onConnectionCallback (this w) with
           | Some cb => [CallConnection cb false]
           | None => []
           end
    | None => []
    end
    ++ NewWebSocket wsUrl
       :: (if WebSocket_throws env wsUrl
           then match onErrorCallback (this w) with
                | Some cb =>
                    [CallError cb (JString "Failed to establish WebSocket connection")]
                | None => []
                end
           else [])
  /\ this w'
     = set_socket (if WebSocket_throws env wsUrl then None else Some (next_socket w))
         (this w)
  /\ next_socket w'
     = (if WebSocket_throws env wsUrl then next_socket w else S (next_socket w))
  /\ timers w' = timers w.
Proof.
  intros Hcred. cbv zeta.
  destruct (connectWebSocket_frame env w) as (_ & Ht & _).
  rewrite Ht. revert Ht. rewrite connectWebSocket_unfold. intros _.
  destruct (close_existing_spec w) as (Hthis & _ & _ & Hns & _ & Htr).
  assert (Hcred' : truthy_str (transferId (this (close_existing w)))
                   && truthy_str (signature (this (close_existing w))) = true)
    by (rewrite Hthis; exact Hcred).
  assert (Hurl : wsUrl_of env (this (close_existing w)) = wsUrl_of env (this w))
    by (rewrite Hthis; reflexivity).
  destruct (open_socket_present env _ Hcred') as (_ & _ & _ & Htr' & _).
  pose proof (open_socket_outcome env _ Hcred') as Hout. cbv zeta in Hout.
  rewrite Hurl, Hthis, Hns in *.
  split; [apply since_app; rewrite Htr', Htr, <- app_assoc; reflexivity|].
  destruct (WebSocket_throws env (wsUrl_of env (this w)));
    destruct Hout as (-> & _ & ->); repeat split.
Qed.

Lemma wsUrl_of_credentials env c tid sig :
  transferId c = Some tid -> signature c = Some sig ->
  wsUrl_of env c
  = (if String.eqb (location_protocol env) "https:" then "wss:" else "ws:")
      +:+ "//" +:+ wsBaseUrl c +:+ "/transfers/" +:+ tid +:+ "/ws?token=" +:+ sig.
Proof. intros Ht Hs. unfold wsUrl_of, ws_scheme. rewrite Ht, Hs. reflexivity. Qed.

Lemma truthy_str_Some s : s <> "" -> truthy_str (Some s) = true.
Proof. intros H. simpl. apply String.eqb_neq in H. rewrite H. reflexivity. Qed.

(** ** Closing, failing and reconnecting *)

(** X4. A close event with any code other than 1000 that finds the counter
    below the cap notifies the connection observer once, clears the
    socket handle, moves the counter up by one and sets exactly one retry
    timer, with the backoff delay of the new counter value; right after a
    successful open that delay is 1000 ms. *)
Theorem abnormal_closure_schedules_one_retry
    (env : Browser) (w : World) (sock : nat) (ws : WebSocket) (code : Z)
    (Hsock : sockets w !! sock = Some ws)
    (Hlive : readyState ws <> CLOSED)
    (Habnormal : code <> 1000)
    (Hbelow : 0 <= reconnectAttempts (this w) < maxReconnectAttempts (this w)) :
  let w' := step env (SocketClosed sock code) w in
  let delay := Z.min (1000 * 2 ^ reconnectAttempts (this w))
                 (backoffCap (variant (this w))) in
  since w w'
  = match onConnectionCallback (this w) with
    | Some cb => [CallConnection cb false]
    | None => []
    end
    ++ (if truthy_num (reconnectTimeout (this w))
        then [ClearTimeout (default 0 (reconnectTimeout (this w)))] else [])
    ++ [SetTimeout (next_timer w) delay]
  /\ socket (this w') = None
  /\ reconnectAttempts (this w') = reconnectAttempts (this w) + 1
  /\ timers w' !! next_timer w = Some delay
  /\ readyState_of sock w' = CLOSED
  /\ (reconnectAttempts (this w) = 0 -> delay = 1000).
Proof.
  cbv zeta. unfold step. rewrite Hsock.
  destruct (readyState ws =? CLOSED) eqn:E; [apply Z.eqb_eq in E; contradiction|].
  set (w0 := with_sockets (insert sock (set_readyState CLOSED ws)) w).
  rewrite onclose_unfold. cbv zeta.
  change (this w0) with (this w).
  replace (negb (code =? 1000)) with true
    by (symmetry; apply negb_true_iff, Z.eqb_neq; exact Habnormal).
  replace (reconnectAttempts (this w) <? maxReconnectAttempts (this w)) with true
    by (symmetry; apply Z.ltb_lt; lia).
  cbn [andb].
  destruct (onclose_notification code w0) as (Hthis & _ & Hn & Hs & _ & Htr).
  change (this w0) with (this w) in *. change (trace w0) with (trace w) in *.
  change (next_timer w0) with (next_timer w) in *.
  set (w1 := log_bundled _ _) in *.
  destruct (attemptReconnect_spec w1) as (Hthis' & Ht' & _ & Hs' & _ & Htr' & _).
  rewrite Hthis, Hn in *.
  cbn [reconnectAttempts reconnectTimeout variant set_socket] in *.
  replace (reconnectAttempts (this w) + 1 - 1) with (reconnectAttempts (this w)) in *
    by lia.
  split; [apply since_app; rewrite Htr', Htr, <- app_assoc; reflexivity|].
  rewrite Hthis', Ht'. unfold readyState_of. rewrite Hs', Hs.
  subst w0. cbn [sockets with_sockets socket reconnectAttempts
                 set_reconnectTimeout set_reconnectAttempts set_socket].
  rewrite !lookup_insert_eq.
  repeat split.
  intros ->. destruct (variant (this w)); reflexivity.
Qed.

Lemma abnormal_closure_schedules_one_retry_witness :
  since tracking (step https_page (SocketClosed 0%nat 1006) tracking)
  = [CallConnection 3%nat false; SetTimeout 1 1000].
Proof.
  assert (Hsock : sockets tracking !! 0%nat
                  = Some {| url := "wss://transfer-status.zenobiapay.com/transfers/t1/ws?token=s1";
                            readyState := OPEN |})
    by (vm_compute; reflexivity).
  assert (Hlive : readyState
                    {| url := "wss://transfer-status.zenobiapay.com/transfers/t1/ws?token=s1";
                       readyState := OPEN |} <> CLOSED)
    by (vm_compute; discriminate).
  assert (Habnormal : 1006 <> 1000) by lia.
  assert (Hbelow : 0 <= reconnectAttempts (this tracking)
                     < maxReconnectAttempts (this tracking))
    by (vm_compute; split; [discriminate | reflexivity]).
  pose proof (proj1 (abnormal_closure_schedules_one_retry https_page tracking 0%nat _
                       1006 Hsock Hlive Habnormal Hbelow)) as H.
  rewrite H. vm_compute. reflexivity.
Defined.

(** X5. With both credentials present, [connectWebSocket] on a client that
    still holds a socket first calls [close()] on that socket and reports
    "disconnected", and only then constructs the new socket; the client
    ends up holding the new socket, not the old one. *)
Theorem reconnect_closes_previous_connection_first
    (env : Browser) (w : World) (old : nat)
    (Hheld : socket (this w) = Some old)
    (Hcredentials : truthy_str (transferId (this w))
                    && truthy_str (signature (this w)) = true)
    (Hconstructs : WebSocket_throws env (wsUrl_of env (this w)) = false) :
  let w' := connectWebSocket env w in
  since w w'
  = SocketCloseCall old None
    :: match onConnectionCallback (this w) with
       | Some cb => [CallConnection cb false]
       | None => []
       end
    ++ [NewWebSocket (wsUrl_of env (this w))]
  /\ socket (this w') = Some (next_socket w)
  /\ next_socket w' = S (next_socket w).
Proof.
  cbv zeta.
  destruct (connect_present env w Hcredentials) as (Hsince & Hthis & Hns & _).
  rewrite Hsince, Hthis, Hns, Hheld, Hconstructs. repeat split.
Qed.

Lemma reconnect_closes_previous_connection_first_witness :
  since tracking (connectWebSocket https_page tracking)
  = [SocketCloseCall 0%nat None; CallConnection 3%nat false;
     NewWebSocket "wss://transfer-status.zenobiapay.com/transfers/t1/ws?token=s1"]
  /\ socket (this (connectWebSocket https_page tracking)) = Some 1%nat.
Proof.
  assert (Hheld : socket (this tracking) = Some 0%nat) by (vm_compute; reflexivity).
  assert (Hcred : truthy_str (transferId (this tracking))
                  && truthy_str (signature (this tracking)) = true)
    by (vm_compute; reflexivity).
  assert (Hok : WebSocket_throws https_page (wsUrl_of https_page (this tracking)) = false)
    by (vm_compute; reflexivity).
  destruct (reconnect_closes_previous_connection_first https_page tracking 0%nat
              Hheld Hcred Hok) as (H1 & H2 & _).
  split.
  - rewrite H1. vm_compute. reflexivity.
  - rewrite H2. vm_compute. reflexivity.
Defined.

(** X6. When constructing the socket throws, [connectWebSocket] reports
    "Failed to establish WebSocket connection" to the error observer
    exactly once, holds no socket afterwards, adds none to the browser's
    table, and schedules no retry: the pending timers are as before. *)
Theorem socket_setup_failure_is_reported_not_retried
    (env : Browser) (w : World) (cb : Callback)
    (Hcredentials : truthy_str (transferId (this w))
                    && truthy_str (signature (this w)) = true)
    (Hthrows : WebSocket_throws env (wsUrl_of env (this w)) = true)
    (Hobserver : onErrorCallback (this w) = Some cb) :
  let w' := connectWebSocket env w in
  count is_error_call (since w w') = 1
  /\ CallError cb (JString "Failed to establish WebSocket connection") ∈ since w w'
  /\ socket (this w') = None
  /\ next_socket w' = next_socket w
  /\ count is_retry (since w w') = 0
  /\ timers w' = timers w
  /\ reconnectAttempts (this w') = reconnectAttempts (this w).
Proof.
  cbv zeta.
  destruct (connect_present env w Hcredentials) as (Hsince & Hthis & Hns & Ht).
  rewrite Hsince, Hthis, Hns, Ht, Hthrows, Hobserver, !count_app.
  split; [destruct (socket (this w)), (onConnectionCallback (this w)); reflexivity|].
  split; [apply elem_of_app; right; right; left|].
  split; [reflexivity|]. split; [reflexivity|].
  split; [destruct (socket (this w)), (onConnectionCallback (this w)); reflexivity|].
  split; reflexivity.
Qed.

Lemma socket_setup_failure_is_reported_not_retried_witness :
  let env := {| location_protocol := "https:"; JSON_parse := json_parse;
                WebSocket_throws := fun _ => true |} in
  count is_error_call (since tracking (connectWebSocket env tracking)) = 1
  /\ socket (this (connectWebSocket env tracking)) = None.
Proof.
  cbv zeta.
  destruct (socket_setup_failure_is_reported_not_retried
              {| location_protocol := "https:"; JSON_parse := json_parse;
                 WebSocket_throws := fun _ => true |} tracking 2%nat)
    as (H1 & _ & H3 & _);
    [vm_compute; reflexivity | reflexivity | vm_compute; reflexivity |].
  split; [exact H1 | exact H3].
Defined.

(** X7. An error event of a socket that is not closed yet invokes the
    error observer exactly once, with "WebSocket error occurred", and does
    nothing else: the client, the sockets and the timers are unchanged, so
    the connection is not torn down and no retry is scheduled by the error
    itself. *)
Theorem transport_error_is_reported_once
    (env : Browser) (w : World) (sock : nat) (ws : WebSocket) (cb : Callback)
    (Hsock : sockets w !! sock = Some ws)
    (Hlive : readyState ws <> CLOSED)
    (Hobserver : onErrorCallback (this w) = Some cb) :
  let w' := step env (SocketErrored sock) w in
  since w w' = [CallError cb (JString "WebSocket error occurred")]
  /\ this w' = this w
  /\ sockets w' = sockets w
  /\ timers w' = timers w.
Proof.
  cbv zeta. unfold step. rewrite Hsock.
  destruct (readyState ws =? CLOSED) eqn:E; [apply Z.eqb_eq in E; contradiction|].
  destruct (onerror_spec w) as (Hthis & Ht & _ & Hs & _ & Htr).
  rewrite Hobserver in Htr. rewrite (since_app _ _ _ Htr).
  repeat split; assumption.
Qed.

Lemma transport_error_is_reported_once_witness :
  since tracking (step https_page (SocketErrored 0%nat) tracking)
  = [CallError 2%nat (JString "WebSocket error occurred")].
Proof.
  refine (proj1 (transport_error_is_reported_once https_page tracking 0%nat
                   {| url := "wss://transfer-status.zenobiapay.com/transfers/t1/ws?token=s1";
                      readyState := OPEN |} 2%nat _ _ _));
    [vm_compute; reflexivity | vm_compute; discriminate | vm_compute; reflexivity].
Defined.

(** ** Frames *)


Lemma onmessage_error env sock data w d message :
  JSON_parse env data = Some d ->
  get d "type" = Some (JString "error") ->
  get d "message" = Some message -> truthy (Some message) = true ->
  trace (onmessage env sock data w)
  = trace w ++ if logging_throws w (Some message)
               then parse_failure_report w
               else match onErrorCallback (this w) with
                    | Some cb => [CallError cb message]
                    | None => []
                    end.
Proof.
  unfold onmessage, parse_failure_report. intros -> Hty Hm Htruthy.
  destruct d; try discriminate. rewrite Hty, Hm.
  change (strict_eq_str (Some (JString "error")) "status") with false.
  change (strict_eq_str (Some (JString "error")) "error") with true.
  rewrite Htruthy. cbn [andb].
  open_rec w; exec; cases; list_eq.
Qed.


(** X9. A frame that parses to an object of type ["error"] with a truthy
    [message] is forwarded to the error observer exactly once, with that
    message: always in the reference class, and in the older class
    whenever the line it first writes to the console, which interpolates
    the message, does not throw.  When that line throws the older class
    reports ["Failed to parse message"] to the error observer instead.
    Either way nothing else happens and the connection stays as it is. *)
Theorem error_frame_is_forwarded_verbatim
    (env : Browser) (w : World) (sock : nat) (data : string)
    (d message : JSON) (cb : Callback)
    (Hparse : JSON_parse env data = Some d)
    (Htype : get d "type" = Some (JString "error"))
    (Hmessage : get d "message" = Some message)
    (Htruthy : truthy (Some message) = true)
    (Hobserver : onErrorCallback (this w) = Some cb) :
  let w' := onmessage env sock data w in
  (variant (this w) = Reference -> since w w' = [CallError cb message])
  /\ (ToString_throws message = false -> since w w' = [CallError cb message])
  /\ (variant (this w) = Bundled -> ToString_throws message = true ->
      since w w' = [CallError cb (JString "Failed to parse message")])
  /\ this w' = this w
  /\ sockets w' = sockets w.
Proof.
  cbv zeta.
  pose proof (onmessage_error env sock data w d message Hparse Htype Hmessage Htruthy)
    as Htr.
  unfold parse_failure_report in Htr.
  rewrite Hobserver in Htr. rewrite (since_app _ _ _ Htr).
  destruct (onmessage_frame env sock data w) as (Hthis & Hs & _).
  unfold logging_throws, template_throws.
  repeat split; try assumption.
  - intros ->. reflexivity.
  - intros ->. destruct (variant (this w)); reflexivity.
  - intros -> ->. reflexivity.
Qed.


Lemma error_frame_is_forwarded_verbatim_witness :
  (json_parse error_text
   = Some (JObject [("type", JString "error"); ("message", JString "transfer expired")])
   /\ since tracking (onmessage https_page 0%nat error_text tracking)
      = [CallError 2%nat (JString "transfer expired")])
  /\ (json_parse unprintable_error_text
      = Some (JObject [("type", JString "error");
                       ("message", JObject [("toString", JString "x")])])
      /\ since tracking_older
           (onmessage https_page 0%nat unprintable_error_text tracking_older)
         = [CallError 2%nat (JString "Failed to parse message")]).
Proof.
  assert (Hparse : JSON_parse https_page error_text
                   = Some (JObject [("type", JString "error");
                                    ("message", JString "transfer expired")]))
    by (vm_compute; reflexivity).
  assert (Hparse' : JSON_parse https_page unprintable_error_text
                    = Some (JObject [("type", JString "error");
                                     ("message", JObject [("toString", JString "x")])]))
    by (vm_compute; reflexivity).
  split; (split; [assumption|]).
  - refine (proj1 (error_frame_is_forwarded_verbatim https_page tracking 0%nat error_text
                     _ (JString "transfer expired") 2%nat Hparse _ _ _ _) _);
      vm_compute; reflexivity.
  - refine (proj1 (proj2 (proj2
              (error_frame_is_forwarded_verbatim https_page tracking_older 0%nat
                 unprintable_error_text _
                 (JObject [("toString", JString "x")])
                 2%nat Hparse' _ _ _ _))) _ _);
      vm_compute; reflexivity.
Defined.

(** ** Invariants over whole runs *)

(** X10. Whatever the events, the only thing the client ever sends on a
    socket is the pong text [{"type":"pong"}]. *)
Theorem only_pong_is_ever_sent (env : Browser) (events : list Event) (w : World) :
  Forall (fun e => match e with
                   | SocketSend _ data => data = pong_frame
                   | _ => True
                   end)
    (since w (run env events w)).
Proof.
  revert w. apply run_effects. intros e w.
  eapply Forall_impl; [apply step_effects|].
  intros [] H; try exact I. exact H.
Qed.

(** X18. Whatever the events, every [close()] the client calls on a socket
    is a call without a close code; in particular it never closes with the
    normal-closure code 1000 that its own close handler takes as the sign
    of a deliberate close. *)
Theorem sockets_are_closed_without_a_code
    (env : Browser) (events : list Event) (w : World) :
  Forall (fun e => match e with
                   | SocketCloseCall _ code => code = None
                   | _ => True
                   end)
    (since w (run env events w)).
Proof.
  revert w. apply run_effects. intros e w.
  eapply Forall_impl; [apply step_effects|].
  intros [] H; try exact I. exact (proj1 H).
Qed.

(** X17. Whatever the events, every socket the client constructs is
    constructed on an endpoint
    [<scheme>//<host>/transfers/<id>/ws?token=<token>] with a non-empty id
    and a non-empty token, the scheme fixed by the page and the host the
    one the client started with. *)
Theorem every_connection_attempt_is_well_formed
    (env : Browser) (events : list Event) (w : World) :
  Forall (fun e => match e with
                   | NewWebSocket wsUrl =>
                       exists tid sig,
                         tid <> "" /\ sig <> ""
                         /\ wsUrl = ws_scheme env +:+ "//" +:+ wsBaseUrl (this w)
                                      +:+ "/transfers/" +:+ tid +:+ "/ws?token=" +:+ sig
                   | _ => True
                   end)
    (since w (run env events w)).
Proof.
  set (host := wsBaseUrl (this w)).
  assert (Hhost : wsBaseUrl (this w) = host) by reflexivity. clearbody host.
  revert w Hhost.
  apply (run_effects_inv env (fun w => wsBaseUrl (this w) = host)).
  - intros e w <-. apply (bookkeeping_step env e w).
  - intros e w Hw. eapply Forall_impl; [apply step_effects|].
    intros [] H; try exact I. destruct H as [-> Hcred].
    assert (Hh : wsBaseUrl (this (step env e w)) = host)
      by (rewrite <- Hw; apply (bookkeeping_step env e w)).
    apply andb_true_iff in Hcred. destruct Hcred as [Ht Hs].
    destruct (transferId (this (step env e w))) as [tid|] eqn:Etid; [|discriminate].
    destruct (signature (this (step env e w))) as [sig|] eqn:Esig; [|discriminate].
    exists tid, sig. simpl in Ht, Hs.
    apply negb_true_iff, String.eqb_neq in Ht, Hs.
    split; [exact Ht|]. split; [exact Hs|].
    unfold wsUrl_of. rewrite Etid, Esig, Hh. reflexivity.
Qed.

(** X1. On every client reached from its construction, at most one retry
    timer is pending, and a pending timer is the one remembered in
    [reconnectTimeout]. *)
Theorem at_most_one_retry_is_pending
    (env : Browser) (v : Variant) (isTest : bool) (history : list Event) :
  let w := run env history (page (new_client v isTest)) in
  (size (timers w) <= 1)%nat
  /\ forall id delay, timers w !! id = Some delay -> reconnectTimeout (this w) = Some id.
Proof.
  cbv zeta. set (w := run env history (page (new_client v isTest))).
  assert (Hw : timers_tracked w).
  { apply tracked_run, tracked_page. destruct v; reflexivity. }
  destruct Hw as [_ Hw].
  split; [|intros id delay H; exact (proj1 (Hw id delay H))].
  destruct (reconnectTimeout (this w)) as [rt|] eqn:Ert.
  - destruct (timers w !! rt) as [d|] eqn:Hrt.
    + replace (timers w) with ({[rt := d]} : gmap Z Z);
        [rewrite map_size_singleton; lia|].
      apply map_eq. intros k. destruct (decide (k = rt)) as [->|Hne].
      * rewrite lookup_singleton_eq. symmetry. exact Hrt.
      * rewrite lookup_singleton_ne by congruence.
        destruct (timers w !! k) as [d'|] eqn:Hk; [|reflexivity].
        destruct (Hw k d' Hk) as [Heq _]. congruence.
    + replace (timers w) with (∅ : gmap Z Z); [rewrite map_size_empty; lia|].
      symmetry. apply map_empty. intros k.
      destruct (timers w !! k) as [d'|] eqn:Hk; [|reflexivity].
      destruct (Hw k d' Hk) as [Heq _]. congruence.
  - replace (timers w) with (∅ : gmap Z Z); [rewrite map_size_empty; lia|].
    symmetry. apply map_empty. intros k.
    destruct (timers w !! k) as [d'|] eqn:Hk; [|reflexivity].
    destruct (Hw k d' Hk) as [Heq _]. congruence.
Qed.

(** X2. On every client reached from its construction, whatever the
    events, opens included, [reconnectAttempts] lies between 0 and
    [maxReconnectAttempts], and the cap is the constructor's: 6 in the
    reference class, 5 in the older one. *)
Theorem attempt_counter_stays_within_the_cap
    (env : Browser) (v : Variant) (isTest : bool) (history : list Event) :
  let w := run env history (page (new_client v isTest)) in
  0 <= reconnectAttempts (this w) <= maxReconnectAttempts (this w)
  /\ maxReconnectAttempts (this w) = match v with Reference => 6 | Bundled => 5 end.
Proof.
  cbv zeta.
  destruct (run_config env history (page (new_client v isTest))) as (_ & Hmax & _).
  split.
  - apply run_counter_range. destruct v; simpl; lia.
  - rewrite Hmax. destruct v; reflexivity.
Qed.

Lemma next_delay_range c :
  0 <= reconnectAttempts c -> 1000 <= next_delay c <= backoffCap (variant c).
Proof.
  intros H. unfold next_delay.
  pose proof (Z.pow_pos_nonneg 2 (reconnectAttempts c) ltac:(lia) H).
  destruct (variant c); simpl; lia.
Qed.

(** X3. On every client reached from its construction, every retry timer
    ever set has a positive identifier and a delay of at least 1000 ms and
    at most the backoff cap of the class (30000 ms, or 5000 ms in the
    older class). *)
Theorem retry_delays_lie_between_base_and_cap
    (env : Browser) (v : Variant) (isTest : bool) (history : list Event) :
  Forall (fun e => match e with
                   | SetTimeout id delay =>
                       0 < id /\ 1000 <= delay <= backoffCap v
                   | _ => True
                   end)
    (trace (run env history (page (new_client v isTest)))).
Proof.
  assert (Hsince : forall w' : World,
            trace w' = since (page (new_client v isTest)) w')
    by (intros w'; unfold since; destruct v; reflexivity).
  rewrite Hsince.
  apply (run_effects_inv env
           (fun w => timers_tracked w /\ variant (this w) = v
                     /\ 0 <= reconnectAttempts (this w))).
  - intros e w (Htracked & Hv & Ha).
    destruct (bookkeeping_step env e w) as (_ & Hv' & _ & _ & Hmove).
    split; [apply tracked_step, Htracked|]. split; [rewrite Hv'; exact Hv|].
    destruct Hmove as [(-> & _) | [(_ & -> & _) | (_ & -> & _)]]; lia.
  - intros e w ((Hn & _) & Hv & Ha).
    eapply Forall_impl; [apply step_effects|].
    intros [] H; try exact I. destruct H as (-> & -> & _).
    split; [exact Hn|]. rewrite <- Hv. apply next_delay_range, Ha.
  - split; [apply tracked_page; destruct v; reflexivity|].
    destruct v; simpl; split; (reflexivity || lia).
Qed.

(** The close event of a socket that is not closed yet, in full. *)
Lemma close_event_spec env w sock ws code :
  sockets w !! sock = Some ws -> readyState ws <> CLOSED ->
  let retry := negb (code =? 1000)
               && (reconnectAttempts (this w) <? maxReconnectAttempts (this w)) in
  let w' := step env (SocketClosed sock code) w in
  since w w'
  = match onConnectionCallback (this w) with
    | Some cb => [CallConnection cb false]
    | None => []
    end
    ++ (if retry
        then (if truthy_num (reconnectTimeout (this w))
              then [ClearTimeout (default 0 (reconnectTimeout (this w)))] else [])
             ++ [SetTimeout (next_timer w) (next_delay (this w))]
        else [])
  /\ this w'
     = (if retry
        then set_reconnectTimeout (Some (next_timer w))
               (set_reconnectAttempts (reconnectAttempts (this w) + 1)
                  (set_socket None (this w)))
        else set_socket None (this w))
  /\ sockets w' = <[sock := set_readyState CLOSED ws]> (sockets w)
  /\ next_socket w' = next_socket w.
Proof.
  intros Hsock Hlive. cbv zeta. unfold step. rewrite Hsock.
  destruct (readyState ws =? CLOSED) eqn:E; [apply Z.eqb_eq in E; contradiction|].
  set (w0 := with_sockets (insert sock (set_readyState CLOSED ws)) w).
  rewrite onclose_unfold. cbv zeta.
  change (this w0) with (this w).
  destruct (onclose_notification code w0) as (Hthis & _ & Hn & Hs & Hns & Htr).
  change (this w0) with (this w) in *. change (trace w0) with (trace w) in *.
  change (next_timer w0) with (next_timer w) in *.
  change (next_socket w0) with (next_socket w) in *.
  change (sockets w0) with (<[sock := set_readyState CLOSED ws]> (sockets w)) in *.
  set (w1 := log_bundled _ _) in *.
  destruct (negb (code =? 1000)
            && (reconnectAttempts (this w) <? maxReconnectAttempts (this w))).
  - destruct (attemptReconnect_spec w1) as (Hthis' & _ & _ & Hs' & Hns' & Htr' & _).
    rewrite Hthis, Hn in *.
    cbn [reconnectAttempts reconnectTimeout variant set_socket] in *.
    replace (reconnectAttempts (this w) + 1 - 1) with (reconnectAttempts (this w)) in *
      by lia.
    split; [apply since_app; rewrite Htr', Htr, <- app_assoc; reflexivity|].
    rewrite Hthis', Hs', Hs, Hns', Hns. repeat split.
  - split; [apply since_app; rewrite Htr, app_nil_r; reflexivity|].
    rewrite Hthis, Hs, Hns. repeat split.
Qed.

Lemma count_close_calls_notification (o : option Callback) (b : bool) :
  count is_close_call
    (match o with Some cb => [CallConnection cb b] | None => [] end) = 0.
Proof. destruct o; reflexivity. Qed.

(** X11. The close handler clears [this.socket] whichever socket the close
    event belongs to.  When the event is that of a socket the client no
    longer holds, the client forgets the socket it does hold: that socket
    is left as it is in the browser, no [close()] is called on it, and a
    [connectWebSocket] that follows does not close it either, so it stays
    connected beside whatever is opened next. *)
Theorem stale_close_event_forgets_current_socket
    (env : Browser) (w : World) (current stale : nat) (ws : WebSocket) (code : Z)
    (Hheld : socket (this w) = Some current)
    (Hother : stale <> current)
    (Hstale : sockets w !! stale = Some ws)
    (Hlive : readyState ws <> CLOSED) :
  let w' := step env (SocketClosed stale code) w in
  socket (this w') = None
  /\ sockets w' !! current = sockets w !! current
  /\ count is_close_call (since w w') = 0
  /\ count is_close_call (since w' (connectWebSocket env w')) = 0.
Proof.
  cbv zeta.
  destruct (close_event_spec env w stale ws code Hstale Hlive) as (Hsince & Hthis & Hs & _).
  cbv zeta in *.
  assert (Hnone : socket (this (step env (SocketClosed stale code) w)) = None)
    by (rewrite Hthis; destruct (_ && _); reflexivity).
  split; [exact Hnone|].
  split; [rewrite Hs; apply lookup_insert_ne; exact Hother|].
  split.
  - rewrite Hsince, count_app, count_close_calls_notification.
    destruct (_ && _); [|reflexivity].
    rewrite count_app. destruct (truthy_num _); reflexivity.
  - apply count_zero_Forall.
    eapply Forall_impl; [apply effects_connectWebSocket|].
    intros [] H; try reflexivity. destruct H as [_ H]. congruence.
Qed.

Lemma stale_close_event_forgets_current_socket_witness :
  socket (this relistened) = Some 1%nat
  /\ socket (this (step https_page (SocketClosed 0%nat 1005) relistened)) = None
  /\ readyState_of 1%nat
       (run https_page [SocketClosed 0%nat 1005; TimerFired 1] relistened) = OPEN
  /\ readyState_of 2%nat
       (run https_page [SocketClosed 0%nat 1005; TimerFired 1] relistened) = CONNECTING.
Proof.
  assert (Hheld : socket (this relistened) = Some 1%nat) by (vm_compute; reflexivity).
  assert (Hother : 0%nat <> 1%nat) by discriminate.
  assert (Hstale : sockets relistened !! 0%nat
                   = Some {| url := "wss://transfer-status.zenobiapay.com/transfers/t1/ws?token=s1";
                             readyState := CLOSING |})
    by (vm_compute; reflexivity).
  assert (Hlive : readyState
                    {| url := "wss://transfer-status.zenobiapay.com/transfers/t1/ws?token=s1";
                       readyState := CLOSING |} <> CLOSED)
    by (vm_compute; discriminate).
  split; [exact Hheld|].
  split; [exact (proj1 (stale_close_event_forgets_current_socket https_page relistened
                          1%nat 0%nat _ 1005 Hheld Hother Hstale Hlive))|].
  split; vm_compute; reflexivity.
Defined.

(** ** The caller's operations *)

(** A client with nothing to cancel, nothing to close and nothing to
    forget is left alone by [disconnect]. *)
Lemma disconnect_fixed w :
  truthy_num (reconnectTimeout (this w)) = false ->
  match socket (this w) with
  | Some s => readyState_of s w <? 2
  | None => false
  end = false ->
  transferId (this w) = None -> signature (this w) = None ->
  disconnect w = w.
Proof.
  intros Hp Hc Ht Hs. unfold disconnect. rewrite Hp. cbv zeta.
  destruct (socket (this w)) as [s|] eqn:E; [rewrite Hc|];
    destruct w as [[]]; simpl in *; subst; reflexivity.
Qed.

(** X12. [disconnect] is idempotent: a second call changes nothing, calls
    no observer and closes nothing. *)
Theorem disconnect_is_idempotent (w : World) :
  disconnect (disconnect w) = disconnect w.
Proof.
  destruct (disconnect_spec w) as (Hthis & _ & _ & Hs & _).
  apply disconnect_fixed; rewrite ?Hthis; try reflexivity.
  - simpl. destruct (truthy_num (reconnectTimeout (this w))) eqn:E;
      [reflexivity | exact E].
  - simpl. destruct (socket (this w)) as [s|] eqn:Es; [|reflexivity].
    destruct (readyState_of s w <? 2) eqn:Er; [reflexivity|].
    unfold readyState_of in *. rewrite Hs. exact Er.
Qed.

(** X13. [listenToTransfer] with a non-empty id and a non-empty token
    makes exactly one connection attempt, whatever the state of the client
    (also after [disconnect], and whatever credentials were stored
    before), and that attempt goes to the endpoint built from the supplied
    id and token. *)
Theorem listenToTransfer_connects_with_the_supplied_credentials
    (env : Browser) (w : World) (tid sig : string)
    (onStatus onError onConnection : option Callback)
    (Htid : tid <> "") (Hsig : sig <> "") :
  let w' := listenToTransfer env tid sig onStatus onError onConnection w in
  let endpoint :=
    (if String.eqb (location_protocol env) "https:" then "wss:" else "ws:")
      +:+ "//" +:+ wsBaseUrl (this w) +:+ "/transfers/" +:+ tid
      +:+ "/ws?token=" +:+ sig in
  count is_connect (since w w') = 1
  /\ NewWebSocket endpoint ∈ since w w'
  /\ (WebSocket_throws env endpoint = false -> socket (this w') = Some (next_socket w)).
Proof.
  cbv zeta. unfold listenToTransfer.
  set (w0 := with_this (set_callbacks onStatus onError onConnection)
               (with_this (set_credentials (Some tid) (Some sig)) w)).
  assert (Hcred : truthy_str (transferId (this w0)) && truthy_str (signature (this w0))
                  = true)
    by (unfold w0;
        cbn [this with_this set_callbacks set_credentials transferId signature];
        rewrite !truthy_str_Some by assumption; reflexivity).
  destruct (connect_present env w0 Hcred) as (Hsince & Hthis & _).
  rewrite (wsUrl_of_credentials env (this w0) tid sig eq_refl eq_refl) in *.
  change (wsBaseUrl (this w0)) with (wsBaseUrl (this w)) in *.
  change (since w (connectWebSocket env w0)) with (since w0 (connectWebSocket env w0)).
  rewrite Hsince, Hthis. split.
  - rewrite count_app. simpl. split_matches; reflexivity.
  - split; [apply elem_of_app; right; left|].
    intros ->. reflexivity.
Qed.

Lemma listenToTransfer_connects_with_the_supplied_credentials_witness :
  NewWebSocket "wss://transfer-status.zenobiapay.com/transfers/t2/ws?token=s2"
    ∈ since disconnected
        (listenToTransfer https_page "t2" "s2" None None None disconnected).
Proof.
  exact (proj1 (proj2 (listenToTransfer_connects_with_the_supplied_credentials
                         https_page disconnected "t2" "s2" None None None
                         ltac:(discriminate) ltac:(discriminate)))).
Defined.

(** X14. [listenToTransfer] with an empty id or an empty token stores what
    it was given, closes the socket the client holds, if any, and opens
    none: the client is left without a connection. *)
Theorem listenToTransfer_without_credentials_only_tears_down
    (env : Browser) (w : World) (tid sig : string)
    (onStatus onError onConnection : option Callback)
    (Hempty : tid = "" \/ sig = "") :
  let w' := listenToTransfer env tid sig onStatus onError onConnection w in
  count is_connect (since w w') = 0
  /\ socket (this w') = None
  /\ transferId (this w') = Some tid
  /\ signature (this w') = Some sig
  /\ (forall s, socket (this w) = Some s -> SocketCloseCall s None ∈ since w w').
Proof.
  cbv zeta. unfold listenToTransfer.
  set (w0 := with_this (set_callbacks onStatus onError onConnection)
               (with_this (set_credentials (Some tid) (Some sig)) w)).
  assert (Hcred : truthy_str (transferId (this w0)) && truthy_str (signature (this w0))
                  = false).
  { simpl. destruct Hempty as [-> | ->]; [reflexivity|]. apply andb_false_r. }
  change (since w (connectWebSocket env w0)) with (since w0 (connectWebSocket env w0)).
  rewrite connectWebSocket_unfold.
  destruct (close_existing_spec w0) as (Hthis & _ & _ & _ & _ & Htr).
  rewrite open_socket_missing by (rewrite Hthis; exact Hcred).
  erewrite since_app by (simpl; exact Htr).
  cbn [this log]. rewrite Hthis.
  split; [split_matches; reflexivity|].
  repeat split. intros s Hs.
  change (socket (this w0)) with (socket (this w)). rewrite Hs. left.
Qed.

Lemma listenToTransfer_without_credentials_only_tears_down_witness :
  since tracking (listenToTransfer https_page "" "s1" None None None tracking)
  = [SocketCloseCall 0%nat None; CallConnection 3%nat false]
  /\ socket (this (listenToTransfer https_page "" "s1" None None None tracking)) = None.
Proof.
  split; [vm_compute; reflexivity|].
  exact (proj1 (proj2 (listenToTransfer_without_credentials_only_tears_down
                         https_page tracking "" "s1" None None None
                         (or_introl eq_refl)))).
Defined.

(** X15. When a pending retry timer fires on a client that still has its
    credentials, the timer is consumed, exactly one socket is constructed,
    on the endpoint of the stored credentials, and the attempt counter is
    left as it is: only a later open resets it.  The timer does not fire a
    second time. *)
Theorem retry_timer_reconnects_once
    (env : Browser) (w : World) (id delay : Z)
    (Hpending : timers w !! id = Some delay)
    (Hcredentials : truthy_str (transferId (this w))
                    && truthy_str (signature (this w)) = true) :
  let w' := step env (TimerFired id) w in
  timers w' = delete id (timers w)
  /\ count is_connect (since w w') = 1
  /\ NewWebSocket (wsUrl_of env (this w)) ∈ since w w'
  /\ reconnectAttempts (this w') = reconnectAttempts (this w)
  /\ step env (TimerFired id) w' = w'.
Proof.
  cbv zeta.
  set (w0 := log (LogReconnecting (reconnectAttempts (this w)))
               (with_timers (delete id) w)).
  assert (Hstep : step env (TimerFired id) w = connectWebSocket env w0)
    by (unfold step; rewrite Hpending; reflexivity).
  rewrite !Hstep.
  destruct (connect_present env w0 Hcredentials) as (Hsince & Hthis & _ & Ht).
  change (since w (connectWebSocket env w0)) with (since w0 (connectWebSocket env w0)).
  change (this w0) with (this w) in *.
  change (timers w0) with (delete id (timers w)) in *.
  rewrite Hsince, Hthis, Ht.
  split; [reflexivity|]. split.
  { rewrite count_app. simpl. split_matches; reflexivity. }
  split; [apply elem_of_app; right; left|]. split; [reflexivity|].
  unfold step. rewrite Ht, lookup_delete_eq. reflexivity.
Qed.

Lemma retry_timer_reconnects_once_witness :
  let w := step https_page (SocketClosed 0%nat 1006) tracking in
  timers w !! 1 = Some 1000
  /\ NewWebSocket "wss://transfer-status.zenobiapay.com/transfers/t1/ws?token=s1"
       ∈ since w (step https_page (TimerFired 1) w).
Proof.
  cbv zeta.
  assert (Hpending : timers (step https_page (SocketClosed 0%nat 1006) tracking) !! 1
                     = Some 1000)
    by (vm_compute; reflexivity).
  split; [exact Hpending|].
  exact (proj1 (proj2 (proj2 (retry_timer_reconnects_once https_page _ 1 1000 Hpending
                                eq_refl)))).
Defined.

(** X16. The attempt counter moves in two ways only: a close event with a
    code other than 1000 that finds it below the cap raises it by one, and
    an open event resets it to 0.  Nothing the caller does,
    [listenToTransfer] and [disconnect] included, changes it: after the
    retries are used up, only a successful open makes new ones
    available. *)
Theorem attempt_counter_moves_only_on_close_and_open
    (env : Browser) (e : Event) (w : World) :
  let w' := step env e w in
  reconnectAttempts (this w') = reconnectAttempts (this w)
  \/ (exists sock code,
        e = SocketClosed sock code /\ code <> 1000
        /\ reconnectAttempts (this w) < maxReconnectAttempts (this w)
        /\ reconnectAttempts (this w') = reconnectAttempts (this w) + 1)
  \/ (exists sock, e = SocketOpened sock /\ reconnectAttempts (this w') = 0).
Proof.
  cbv zeta.
  destruct e as [tid sig a b c | a b c | tid sig | | sock | sock code | sock
                | sock data | id]; cbn [step].
  - left. destruct (variant (this w)); [|reflexivity]. unfold listenToTransfer.
    match goal with |- context [connectWebSocket env ?w0] =>
      destruct (connectWebSocket_frame env w0) as (-> & _) end. reflexivity.
  - left. destruct (variant (this w)); reflexivity.
  - left. destruct (variant (this w)) eqn:Hv; cbn [this with_this variant set_credentials];
      rewrite Hv; [reflexivity|].
    match goal with |- context [connectWebSocket env ?w0] =>
      destruct (connectWebSocket_frame env w0) as (-> & _) end. reflexivity.
  - left. destruct (disconnect_spec w) as (-> & _). reflexivity.
  - destruct (sockets w !! sock) as [ws|]; [|left; reflexivity].
    destruct (readyState ws =? CONNECTING); [|left; reflexivity].
    right. right. exists sock. split; [reflexivity|].
    match goal with |- context [onopen ?w0] =>
      destruct (onopen_spec w0) as (-> & _) end. reflexivity.
  - destruct (sockets w !! sock) as [ws|] eqn:Hsock; [|left; reflexivity].
    destruct (readyState ws =? CLOSED) eqn:E; [left; reflexivity|].
    apply Z.eqb_neq in E.
    destruct (close_event_spec env w sock ws code Hsock E) as (_ & Hthis & _).
    cbv zeta in Hthis. unfold step in Hthis. rewrite Hsock in Hthis.
    replace (readyState ws =? CLOSED) with false in Hthis
      by (symmetry; apply Z.eqb_neq; exact E).
    rewrite Hthis.
    destruct (negb (code =? 1000)) eqn:Ecode; cbn [andb]; [|left; reflexivity].
    destruct (reconnectAttempts (this w) <? maxReconnectAttempts (this w)) eqn:Elt;
      [|left; reflexivity].
    right. left. exists sock, code. split; [reflexivity|].
    apply negb_true_iff, Z.eqb_neq in Ecode. apply Z.ltb_lt in Elt.
    repeat split; assumption.
  - left. destruct (sockets w !! sock) as [ws|]; [|reflexivity].
    destruct (readyState ws =? CLOSED); [reflexivity|].
    destruct (onerror_spec w) as (-> & _). reflexivity.
  - left. destruct (sockets w !! sock) as [ws|]; [|reflexivity].
    destruct (readyState ws =? OPEN); [|reflexivity].
    destruct (onmessage_frame env sock data w) as (-> & _). reflexivity.
  - left. destruct (timers w !! id); [|reflexivity]. unfold reconnect_callback.
    match goal with |- context [connectWebSocket env ?w0] =>
      destruct (connectWebSocket_frame env w0) as (-> & _) end. reflexivity.
Qed.

(** X19. [listenToTransfer] does not cancel a pending retry.  The timer
    stays pending beside the connection just opened, and when it fires,
    that connection is closed, reported as disconnected, and replaced by
    another one to the same endpoint. *)
Theorem pending_retry_survives_listenToTransfer
    (env : Browser) (w : World) (id delay : Z) (tid sig : string)
    (onStatus onError onConnection : option Callback)
    (Hpending : timers w !! id = Some delay)
    (Htid : tid <> "") (Hsig : sig <> "")
    (Hconstructs : forall wsUrl, WebSocket_throws env wsUrl = false) :
  let w1 := listenToTransfer env tid sig onStatus onError onConnection w in
  let w2 := step env (TimerFired id) w1 in
  timers w1 = timers w
  /\ socket (this w1) = Some (next_socket w)
  /\ since w1 w2
     = SocketCloseCall (next_socket w) None
       :: match onConnectionCallback (this w1) with
          | Some cb => [CallConnection cb false]
          | None => []
          end
       ++ [NewWebSocket (wsUrl_of env (this w1))]
  /\ socket (this w2) = Some (S (next_socket w)).
Proof.
  cbv zeta. unfold listenToTransfer.
  set (w0 := with_this (set_callbacks onStatus onError onConnection)
               (with_this (set_credentials (Some tid) (Some sig)) w)).
  assert (Hcred : truthy_str (transferId (this w0)) && truthy_str (signature (this w0))
                  = true)
    by (unfold w0;
        cbn [this with_this set_callbacks set_credentials transferId signature];
        rewrite !truthy_str_Some by assumption; reflexivity).
  destruct (connect_present env w0 Hcred) as (_ & Hthis & Hns & Ht).
  rewrite Hconstructs in Hthis, Hns.
  set (w1 := connectWebSocket env w0) in *.
  change (timers w0) with (timers w) in Ht.
  change (next_socket w0) with (next_socket w) in *.
  assert (Hcred1 : truthy_str (transferId (this w1)) && truthy_str (signature (this w1))
                   = true) by (rewrite Hthis; exact Hcred).
  assert (Hpending1 : timers w1 !! id = Some delay) by (rewrite Ht; exact Hpending).
  set (w1' := log (LogReconnecting (reconnectAttempts (this w1)))
                (with_timers (delete id) w1)).
  assert (Hstep : step env (TimerFired id) w1 = connectWebSocket env w1')
    by (unfold step; rewrite Hpending1; reflexivity).
  rewrite Hstep.
  destruct (connect_present env w1' Hcred1) as (Hsince' & Hthis' & _).
  change (since w1 (connectWebSocket env w1')) with (since w1' (connectWebSocket env w1')).
  rewrite Hsince', Hthis'. rewrite !Hconstructs.
  change (this w1') with (this w1). change (next_socket w1') with (next_socket w1).
  rewrite Hns. rewrite Hthis at 1 3.
  cbn [socket set_socket].
  repeat split; [exact Ht | rewrite Hthis; reflexivity].
Qed.

Lemma pending_retry_survives_listenToTransfer_witness :
  let w := step https_page (SocketClosed 0%nat 1006) tracking in
  let w1 := listenToTransfer https_page "t1" "s1" None None None w in
  timers w !! 1 = Some 1000
  /\ timers w1 = timers w
  /\ socket (this (step https_page (TimerFired 1) w1)) = Some 2%nat.
Proof.
  cbv zeta.
  assert (Hpending : timers (step https_page (SocketClosed 0%nat 1006) tracking) !! 1
                     = Some 1000)
    by (vm_compute; reflexivity).
  destruct (pending_retry_survives_listenToTransfer https_page
              (step https_page (SocketClosed 0%nat 1006) tracking) 1 1000 "t1" "s1"
              None None None Hpending ltac:(discriminate) ltac:(discriminate)
              (fun _ => eq_refl)) as (H1 & _ & _ & H4).
  split; [exact Hpending|]. split; [exact H1|].
  rewrite H4. vm_compute. reflexivity.
Defined.

(** ** Transfer creation *)

Lemma createTransfer_frame fetched w :
  match outcome (createTransfer fetched w) with
  | inl transfer =>
      fetched = Fulfilled (Ok (Some transfer))
      /\ after (createTransfer fetched w)
         = with_this
             (set_credentials (Some (TransferResponse.transferRequestId transfer))
                (Some (TransferResponse.signature transfer))) w
  | inr error => instanceof_Error error = true /\ after (createTransfer fetched w) = w
  end.
Proof.
  unfold createTransfer.
  destruct fetched as [reason | [[transfer|] | body | ok]]; cbn.
  - split; [destruct reason; reflexivity | reflexivity].
  - split; reflexivity.
  - split; reflexivity.
  - split; [|reflexivity].
    unfold rethrown. destruct (instanceof_Error (failure_of body)) eqn:E;
      [exact E | reflexivity].
  - split; reflexivity.
Qed.

(** X21. A response that is not ok and whose body is a JSON value other
    than [null] makes [createTransfer] reject as follows.  If the body has
    a truthy [message], the rejection is an [Error] made from that message
    (a string message is its text), unless the message cannot be turned
    into a string (an object with a property named [toString], or an array
    holding one), in which case making the [Error] throws a [TypeError],
    which is what the caller gets.  If the message is missing or falsy,
    or the body is not an object, the [Error] carries "Failed to create
    transfer request". *)
Theorem failed_response_message_or_fallback
    (w : World) (error : JSON) (Hnot_null : error <> JNull) :
  outcome (createTransfer (Fulfilled (NotOk (Some error))) w)
  = inr (match get error "message" with
         | Some message =>
             if truthy (Some message)
             then if ToString_throws message then TypeError else Error message
             else Error (JString "Failed to create transfer request")
         | None => Error (JString "Failed to create transfer request")
         end).
Proof.
  unfold createTransfer. cbn [outcome].
  assert (Hsame : forall t : Thrown, rethrown (failure_of (Some error)) = t ->
            @inr TransferResponse.t Thrown (rethrown (failure_of (Some error))) = inr t)
    by (intros t ->; reflexivity).
  apply Hsame. unfold failure_of, json, rethrown.
  destruct error; try congruence; cbn [get]; try reflexivity.
  destruct (assoc "message" props) as [m|]; [|reflexivity].
  destruct (truthy (Some m)); [|reflexivity].
  destruct (ToString_throws m); reflexivity.
Qed.

Lemma failed_response_message_or_fallback_witness :
  outcome (createTransfer
             (Fulfilled (NotOk (Some (JObject [("message", JString "amount too large")]))))
             tracking)
  = inr (Error (JString "amount too large"))
  /\ outcome (createTransfer (Fulfilled (NotOk (Some (JObject [])))) tracking)
     = inr (Error (JString "Failed to create transfer request"))
  /\ outcome (createTransfer
                (Fulfilled (NotOk (Some (JObject [("message",
                                                   JObject [("toString", JBool true)])]))))
                tracking)
     = inr TypeError.
Proof.
  split; [|split].
  - exact (failed_response_message_or_fallback tracking
             (JObject [("message", JString "amount too large")]) ltac:(discriminate)).
  - exact (failed_response_message_or_fallback tracking (JObject [])
             ltac:(discriminate)).
  - exact (failed_response_message_or_fallback tracking
             (JObject [("message", JObject [("toString", JBool true)])])
             ltac:(discriminate)).
Defined.

(** X22. [createTransferRequest] never resolves.  A request that fails or
    a response that is not ok makes it reject as [createTransfer] does.
    On an ok response it calls [json()] for the console first: if the
    response has a body, the read for the result finds it used and throws
    a [TypeError], whatever the body holds; if it has none (status 204 or
    205), both reads find the empty text and the result is a
    [SyntaxError]. *)
Theorem createTransferRequest_never_resolves (fetched : FetchOutcome) :
  (exists error, fst (createTransferRequest fetched) = inr error
                 /\ instanceof_Error error = true)
  /\ (forall body,
        createTransferRequest (Fulfilled (Ok body))
        = (inr TypeError, [LogResponse; ErrCreating TypeError]))
  /\ createTransferRequest (Fulfilled (NoBody true))
     = (inr SyntaxError, [LogResponse; ErrCreating SyntaxError]).
Proof.
  split; [|split].
  - unfold createTransferRequest.
    destruct fetched as [reason | [body | body | []]]; cbn.
    + eexists; split; [reflexivity|]. destruct reason; reflexivity.
    + eexists; split; reflexivity.
    + eexists; split; [reflexivity|].
      unfold rethrown. destruct (instanceof_Error (failure_of body)) eqn:E;
        [exact E | reflexivity].
    + eexists; split; reflexivity.
    + eexists; split; reflexivity.
  - intros body. reflexivity.
  - reflexivity.
Qed.

Lemma connect_attempts env w :
  count is_connect (since w (connectWebSocket env w))
  = if truthy_str (transferId (this w)) && truthy_str (signature (this w))
    then 1 else 0.
Proof.
  destruct (truthy_str (transferId (this w)) && truthy_str (signature (this w))) eqn:E.
  - destruct (connect_present env w E) as (-> & _).
    rewrite count_app. simpl. split_matches; reflexivity.
  - rewrite (count_since _ _ _ (extends_connectWebSocket env w)).
    destruct (connectWebSocket_frame env w) as (_ & _ & _ & _ & Hconn).
    rewrite (Hconn E). lia.
Qed.

(** X23. [createTransferAndListen] of the reference class: when the
    creation succeeds it registers the observers it was given, stores the
    ids of the response and makes one connection attempt with them (none
    if an id is empty); when the creation fails it rejects with an [Error]
    and leaves the page as it was: no observer is registered and nothing
    is connected. *)
Theorem createTransferAndListen_listens_only_after_success
    (env : Browser) (fetched : FetchOutcome)
    (onStatus onError onConnection : option Callback) (w : World) :
  let r := createTransferAndListen env fetched onStatus onError onConnection w in
  match outcome r with
  | inl transfer =>
      fetched = Fulfilled (Ok (Some transfer))
      /\ getTransferId (after r) = Some (TransferResponse.transferRequestId transfer)
      /\ getSignature (after r) = Some (TransferResponse.signature transfer)
      /\ onStatusCallback (this (after r)) = keep_or onStatus (onStatusCallback (this w))
      /\ onErrorCallback (this (after r)) = keep_or onError (onErrorCallback (this w))
      /\ onConnectionCallback (this (after r))
         = keep_or onConnection (onConnectionCallback (this w))
      /\ count is_connect (since w (after r))
         = (if truthy_str (Some (TransferResponse.transferRequestId transfer))
               && truthy_str (Some (TransferResponse.signature transfer))
            then 1 else 0)
  | inr error => instanceof_Error error = true /\ after r = w
  end.
Proof.
  cbv zeta. unfold createTransferAndListen.
  pose proof (createTransfer_frame fetched w) as Hc.
  destruct (outcome (createTransfer fetched w)) as [transfer|error] eqn:E.
  - destruct Hc as (Hf & Hafter). cbn [outcome after]. rewrite Hafter.
    unfold listenToTransfer, getTransferId, getSignature.
    match goal with |- context [connectWebSocket env ?w0] =>
      destruct (connectWebSocket_frame env w0) as (Hthis & _);
      pose proof (connect_attempts env w0) as Hcount
    end.
    rewrite Hthis. repeat split; try reflexivity; [exact Hf|]. exact Hcount.
  - rewrite E. exact Hc.
Qed.

(** X24. [createTransferAndListen] of the older class registers the
    observers before the request is made, so they are registered however
    the creation ends: after a failed creation the client keeps the new
    observers although nothing is connected, where the reference class
    would have kept the old ones. *)
Theorem older_class_registers_observers_before_creation
    (env : Browser) (fetched : FetchOutcome)
    (onStatus onError onConnection : option Callback) (w : World) :
  let called := createTransferAndListen_called onStatus onError onConnection w in
  let r := createTransferAndListen_settled env fetched called in
  onStatusCallback (this (after r)) = keep_or onStatus (onStatusCallback (this w))
  /\ onErrorCallback (this (after r)) = keep_or onError (onErrorCallback (this w))
  /\ onConnectionCallback (this (after r))
     = keep_or onConnection (onConnectionCallback (this w))
  /\ match outcome r with
     | inl transfer =>
         fetched = Fulfilled (Ok (Some transfer))
         /\ count is_connect (since w (after r))
            = (if truthy_str (Some (TransferResponse.transferRequestId transfer))
                  && truthy_str (Some (TransferResponse.signature transfer))
               then 1 else 0)
     | inr error =>
         instanceof_Error error = true
         /\ after r = called
         /\ count is_connect (since w (after r)) = 0
     end.
Proof.
  cbv zeta. unfold createTransferAndListen_settled, createTransferAndListen_called.
  destruct fetched as [reason | [[transfer|] | body | ok]]; cbn [json outcome after].
  - repeat split; [destruct reason; reflexivity|].
    rewrite (since_app _ _ []) by (symmetry; apply app_nil_r). reflexivity.
  - match goal with |- context [connectWebSocket env ?w0] =>
      destruct (connectWebSocket_frame env w0) as (Hthis & _);
      pose proof (connect_attempts env w0) as Hcount
    end.
    rewrite Hthis. repeat split. exact Hcount.
  - repeat split.
    rewrite (since_app _ _ []) by (symmetry; apply app_nil_r). reflexivity.
  - repeat split;
      [|rewrite (since_app _ _ []) by (symmetry; apply app_nil_r); reflexivity].
    unfold rethrown. destruct (instanceof_Error (failure_of body)) eqn:E;
      [exact E | reflexivity].
  - repeat split.
    rewrite (since_app _ _ []) by (symmetry; apply app_nil_r). reflexivity.
Qed.

(** X25. Once the retries are used up, calling [listenToTransfer] again
    connects but does not bring the retries back: if the new connection
    closes before it has opened, whatever the close code, no retry is
    scheduled. *)
Theorem relisten_at_the_cap_gets_no_retry
    (env : Browser) (w : World) (tid sig : string)
    (onStatus onError onConnection : option Callback) (sock : nat) (code : Z)
    (Hcap : maxReconnectAttempts (this w) <= reconnectAttempts (this w)) :
  let w1 := listenToTransfer env tid sig onStatus onError onConnection w in
  let w2 := step env (SocketClosed sock code) w1 in
  reconnectAttempts (this w1) = reconnectAttempts (this w)
  /\ count is_retry (since w1 w2) = 0
  /\ timers w2 = timers w.
Proof.
  cbv zeta. unfold listenToTransfer.
  match goal with |- context [connectWebSocket env ?w0] =>
    destruct (connectWebSocket_frame env w0) as (Hthis & Ht & _);
    set (w1 := connectWebSocket env w0) in *
  end.
  cbn [timers with_this] in Ht.
  assert (Ha : reconnectAttempts (this w1) = reconnectAttempts (this w))
    by (rewrite Hthis; reflexivity).
  assert (Hm : maxReconnectAttempts (this w1) = maxReconnectAttempts (this w))
    by (rewrite Hthis; reflexivity).
  split; [exact Ha|].
  unfold step.
  destruct (sockets w1 !! sock) as [ws|];
    [|rewrite since_refl; split; [reflexivity | exact Ht]].
  destruct (readyState ws =? CLOSED);
    [rewrite since_refl; split; [reflexivity | exact Ht]|].
  match goal with |- context [onclose code ?w1'] =>
    destruct (onclose_at_cap code w1') as (_ & Ht' & _ & Htr);
      [cbn [this with_sockets]; rewrite Ha, Hm; exact Hcap|]
  end.
  rewrite (since_app w1 _ _ Htr), Ht'. split; [|exact Ht].
  split_matches; reflexivity.
Qed.

Lemma relisten_at_the_cap_gets_no_retry_witness :
  let w := step https_page (SocketClosed 6%nat 1006) exhausted in
  let w1 := listenToTransfer https_page "t1" "s1" None None None w in
  socket (this w1) = Some 7%nat
  /\ count is_retry (since w1 (step https_page (SocketClosed 7%nat 1006) w1)) = 0.
Proof.
  cbv zeta. split; [vm_compute; reflexivity|].
  refine (proj1 (proj2 (relisten_at_the_cap_gets_no_retry https_page
                          (step https_page (SocketClosed 6%nat 1006) exhausted)
                          "t1" "s1" None None None 7%nat 1006 _))).
  vm_compute. discriminate.
Defined.
